(** * OceanSpy private utilities ([oceanspy/_ospy_utils.py])

    A shallow embedding of the grid part of the module: [_create_grid]
    (comodo annotation of the dimensions and construction of the xgcm
    grid) and the POP relabelling functions [_add_pop_dims_to_dataset],
    [_dims_from_grid_loc], [_label_coord_grid_locs], [_relabel_pop_dims].

    Python values are Rocq values, and a call is a function to a
    [result]: the value returned or the exception raised.  [_create_grid]
    changes the dataset it is given, so its embedding also returns that
    dataset as the call leaves it and the warnings emitted.  The POP
    functions start from [ds.copy()] and only change the copy; they are
    functions from the dataset to the new one.  xarray is modelled as far
    as this code uses it, xgcm is a parameter. *)

From Stdlib Require Import ZArith Ascii String List DecimalString.
From stdpp Require Import base option list strings gmap fin_maps.

Local Open Scope string_scope.
Local Open Scope Z_scope.
Local Open Scope list_scope.

(** ** Python values and outcomes *)

(** The Python values that reach this code as attribute values, shifts
    and placement codes.  Strings are over the code points below 256.  A
    float is kept as what the code observes of it: its truth value
    ([x != 0.0]) and its [str()]. *)
Inductive pyval : Type :=
  | VNone
  | VInt (z : Z)
  | VStr (s : string)
  | VFloat (nonzero : bool) (repr : string).

#[global] Instance pyval_eq_dec : EqDecision pyval.
Proof. solve_decision. Defined.

(** [str(x)]. *)
Definition py_str (v : pyval) : string :=
  match v with
  | VNone => "None"
  | VInt z => NilZero.string_of_int (Z.to_int z)
  | VStr s => s
  | VFloat _ r => r
  end.

(** [bool(x)], the test of [if x:]. *)
Definition py_truthy (v : pyval) : bool :=
  match v with
  | VNone => false
  | VInt z => negb (z =? 0)
  | VStr s => negb (String.eqb s "")
  | VFloat nz _ => nz
  end.

(** The exceptions the modelled code can raise. *)
Inductive exn : Type :=
  | IndexError
  | ValueError
  | KeyError
  | TypeError
  | AttributeError
  | NameError (name : string).

(** Outcome of a call: a returned value or a raised exception. *)
Inductive result (A : Type) : Type :=
  | Ret (a : A)
  | Raise (e : exn).
Arguments Ret {A} a.
Arguments Raise {A} e.

(** Sequencing: an exception ends the computation.  With these
    instances [x ← r; k] reads as a sequence of Python statements. *)
#[global] Instance result_ret : MRet result := fun _ a => Ret a.
#[global] Instance result_bind : MBind result := fun _ _ k r =>
  match r with
  | Ret a => k a
  | Raise e => Raise e
  end.

Definition raises {A : Type} (r : result A) : Prop := exists e, r = Raise e.

(** ** Strings and dict literals *)

(** [s[i]]: one character, [IndexError] past the end. *)
Definition str_index (s : string) (i : nat) : result ascii :=
  match String.get i s with
  | Some c => Ret c
  | None => Raise IndexError
  end.

(** [int(c)] on a one-character string: the decimal digits give their
    value, every other character below code point 256 is a [ValueError]. *)
Definition int_of_char (c : ascii) : result Z :=
  let n := Z.of_nat (nat_of_ascii c) in
  if (48 <=? n) && (n <=? 57) then Ret (n - 48) else Raise ValueError.

(** [d[k]] on a dict literal, [KeyError] on a missing key. *)
Fixpoint dict_getitem {V : Type} (d : list (Z * V)) (k : Z) : result V :=
  match d with
  | [] => Raise KeyError
  | (k', v) :: d' => if k' =? k then Ret v else dict_getitem d' k
  end.

(** ** [_dims_from_grid_loc] *)

(** The returned value is [None] (the function falls off its end) or a
    tuple of dimension names. *)
Definition _dims_from_grid_loc (grid_loc : pyval) : result (option (list string)) :=
  let grid_loc := py_str grid_loc in
  ndim ← str_index grid_loc 0 ≫= int_of_char;
  x_loc_key ← str_index grid_loc 1 ≫= int_of_char;
  y_loc_key ← str_index grid_loc 2 ≫= int_of_char;
  z_loc_key ← str_index grid_loc 3 ≫= int_of_char;
  x_loc ← dict_getitem [(1, "XT"); (2, "XU")] x_loc_key;
  y_loc ← dict_getitem [(1, "XT"); (2, "XU")] y_loc_key;
  z_loc ← dict_getitem [(0, "surface"); (1, "z_t"); (2, "z_w")] z_loc_key;
  if ndim =? 3 then
    if String.eqb z_loc "surface" then Ret (Some [y_loc; x_loc])
    else Ret (Some [z_loc; y_loc; x_loc])
  else if ndim =? 2 then Ret (Some [z_loc; y_loc; x_loc])
  else Ret None.

(** ** Datasets ([xarray.Dataset]) *)

(** An array: a buffer of the caller's, known by its identity and shape,
    or [numpy.arange(n) + off]. *)
Inductive Data : Type :=
  | Buffer (id : nat) (shape : list nat)
  | ArangePlus (n : nat) (off : pyval).

Definition shape (d : Data) : list nat :=
  match d with
  | Buffer _ sh => sh
  | ArangePlus n _ => [n]
  end.

Abbreviation Attrs := (gmap string pyval).

(** [xarray.Variable]: dimension names, data, attributes, encoding. *)
Record xr_Variable : Type := mkVariable {
  dims : list string;
  data : Data;
  attrs : Attrs;
  encoding : Attrs
}.

(** A dataset: [ds.dims] (name and size, in order), [ds.variables]
    (data variables and coordinates, in order) and the names of the
    coordinates.  Dataset-level attributes play no part in this code. *)
Record Dataset : Type := mkDataset {
  ds_dims : list (string * nat);
  variables : list (string * xr_Variable);
  coord_names : list string
}.

Definition dim_names (ds : Dataset) : list string := (ds_dims ds).*1.

(** [name in ds.dims] *)
Definition in_dims (name : string) (ds : Dataset) : bool :=
  bool_decide (name ∈ dim_names ds).

Fixpoint vars_lookup (name : string) (vs : list (string * xr_Variable)) : option xr_Variable :=
  match vs with
  | [] => None
  | (n, v) :: vs' => if decide (n = name) then Some v else vars_lookup name vs'
  end.

Fixpoint vars_alter (f : xr_Variable → xr_Variable) (name : string)
    (vs : list (string * xr_Variable)) : list (string * xr_Variable) :=
  match vs with
  | [] => []
  | (n, v) :: vs' =>
      if decide (n = name) then (n, f v) :: vs' else (n, v) :: vars_alter f name vs'
  end.

(** [vs[name] = v]: replaces the entry in place or appends a new one. *)
Fixpoint vars_set (name : string) (v : xr_Variable)
    (vs : list (string * xr_Variable)) : list (string * xr_Variable) :=
  match vs with
  | [] => [(name, v)]
  | (n, v') :: vs' =>
      if decide (n = name) then (n, v) :: vs' else (n, v') :: vars_set name v vs'
  end.

Definition with_attrs (f : Attrs → Attrs) (v : xr_Variable) : xr_Variable :=
  mkVariable (dims v) (data v) (f (attrs v)) (encoding v).

(** The attributes seen through [ds[name].attrs]; a dimension without a
    coordinate variable shows the empty dict of a throw-away index. *)
Definition attrs_of (ds : Dataset) (name : string) : Attrs :=
  match vars_lookup name (variables ds) with
  | Some v => attrs v
  | None => ∅
  end.

(** [ds[dim].attrs] changed in place by [f], for [dim] a dimension or a
    variable of [ds].  [ds[dim]] wraps the variable held by the dataset,
    so the change is one of the dataset itself; for a dimension that has
    no coordinate variable xarray builds a fresh index variable and the
    change is dropped with it. *)
Definition dim_attrs_update (dim : string) (f : Attrs → Attrs) (ds : Dataset) : Dataset :=
  mkDataset (ds_dims ds) (vars_alter (with_attrs f) dim (variables ds)) (coord_names ds).

(** ** [_create_grid] *)

(** [coords]: axis name to (dimension name to shift), or [None]. *)
Abbreviation Coords := (option (list (string * list (string * pyval)))).

(** A call [warnings.warn(fmt.format(args), stacklevel=n)]; the message
    is kept as its template and the list it is formatted with. *)
Record warning : Type := mkWarning {
  w_format : string;
  w_args : list string;
  w_stacklevel : Z
}.

(** The loop under [# Clean up comodo]. *)
Definition cleanup_comodo (dataset : Dataset) : Dataset :=
  foldl (fun ds dim =>
           dim_attrs_update dim (delete "c_grid_axis_shift")
             (dim_attrs_update dim (delete "axis") ds))
        dataset (dim_names dataset).

(** Body of [for dim in coords[axis]]. *)
Definition add_comodo_dim (axis : string) (st : Dataset * list string)
    (entry : string * pyval) : Dataset * list string :=
  let '(dataset, warn_dims) := st in
  let dim := entry.1 in
  if negb (in_dims dim dataset) then (dataset, (warn_dims ++ [dim])%list)
  else
    let shift := entry.2 in
    let dataset := dim_attrs_update dim (<["axis" := VStr axis]>) dataset in
    let dataset :=
      if py_truthy shift
      then dim_attrs_update dim (<["c_grid_axis_shift" := VStr (py_str shift)]>) dataset
      else dataset in
    (dataset, warn_dims).

(** Body of [for axis in coords]. *)
Definition add_comodo_axis (st : Dataset * list string)
    (item : string * list (string * pyval)) : Dataset * list string :=
  foldl (add_comodo_dim item.1) st item.2.

(** [if coords:] is false for [None] and for the empty dict. *)
Definition coords_items (coords : Coords) : list (string * list (string * pyval)) :=
  match coords with
  | Some items => items
  | None => []
  end.

(** The loops under [# Add comodo attributes], from [warn_dims = []]. *)
Definition add_comodo (dataset : Dataset) (coords : Coords) : Dataset * list string :=
  foldl add_comodo_axis (dataset, []) (coords_items coords).

Definition not_dimensions_warning (warn_dims : list string) : warning :=
  mkWarning "{} are not dimensions and are not added to the grid object." warn_dims 2.

(** The outcome of a call of [_create_grid]: the caller's dataset as the
    call leaves it, the warnings emitted, and the value returned or the
    exception raised. *)
Record outcome (G : Type) : Type := mkOutcome {
  dataset_after : Dataset;
  warnings : list warning;
  returned : result (option G)
}.
Arguments mkOutcome {G} _ _ _.
Arguments dataset_after {G} _.
Arguments warnings {G} _.
Arguments returned {G} _.

Section CreateGrid.
(** [xgcm.Grid] and its [axes] belong to the xgcm library. *)
Context {Grid Periodic FaceConnections : Type}.
Variable xgcm_Grid : Dataset → Periodic → option FaceConnections → result Grid.
Variable axes : Grid → list pyval.

Definition _create_grid (dataset : Dataset) (coords : Coords) (periodic : Periodic)
    (face_connections : option FaceConnections) : outcome Grid :=
  let dataset := cleanup_comodo dataset in
  let '(dataset, warn_dims) := add_comodo dataset coords in
  let warned :=
    if negb (length warn_dims =? 0)%nat then [not_dimensions_warning warn_dims] else [] in
  let grid :=
    match face_connections with
    | None => xgcm_Grid dataset periodic None
    | Some fc => xgcm_Grid dataset periodic (Some fc)
    end in
  mkOutcome dataset warned
    (grid ← grid;
     if (length (axes grid) =? 0)%nat then Ret None else Ret (Some grid)).
End CreateGrid.

(** ** POP model output *)

(** The modules a global name can be bound to. *)
Inductive py_module : Type := numpy | warnings_module | xgcm | xarray.

(** The namespace of the file: it imports [numpy], [warnings], [xgcm] and
    [xarray as _xr]; its other globals are its own functions, whose names
    all begin with an underscore. *)
Definition module_globals : list (string * py_module) :=
  [("numpy", numpy); ("warnings", warnings_module); ("xgcm", xgcm); ("_xr", xarray)].

Fixpoint namespace_lookup (name : string) (ns : list (string * py_module)) : option py_module :=
  match ns with
  | [] => None
  | (n, m) :: ns' => if decide (n = name) then Some m else namespace_lookup name ns'
  end.

(** A global name that is not bound (and is no builtin) raises
    [NameError] where it is evaluated. *)
Definition global (globals : list (string * py_module)) (name : string) : result py_module :=
  match namespace_lookup name globals with
  | Some m => Ret m
  | None => Raise (NameError name)
  end.

(** [m.arange(n) + off]; only numpy has [arange]. *)
Definition arange_plus (m : py_module) (n : nat) (off : pyval) : result Data :=
  match m with
  | numpy => Ret (ArangePlus n off)
  | _ => Raise AttributeError
  end.

(** The [dims] argument of [xarray.Variable]: [None], one name or a tuple. *)
Inductive py_dims : Type :=
  | DimsNone
  | DimsStr (s : string)
  | DimsTuple (t : list string).

(** [_xr.Variable(dims, data, attrs, encoding, fastpath=True)]: a string is
    one dimension name, [None] cannot be turned into a tuple, and the
    number of names must be the rank of the data. *)
Definition Variable_new (dims : py_dims) (data : Data) (attrs encoding : Attrs)
    : result xr_Variable :=
  dims ← match dims with
         | DimsNone => Raise TypeError
         | DimsStr s => Ret [s]
         | DimsTuple t => Ret t
         end;
  if (length dims =? length (shape data))%nat
  then Ret (mkVariable dims data attrs encoding)
  else Raise ValueError.

(** [for x in xs: s = body(s, x)], stopping at the first exception. *)
Fixpoint for_each {S A : Type} (body : S → A → result S) (s : S) (xs : list A) : result S :=
  match xs with
  | [] => Ret s
  | x :: xs' => s' ← body s x; for_each body s' xs'
  end.

(** One step of xarray's [calculate_dimensions]: the size of [dim] on one
    variable.  A dimension named like a variable without dimensions is
    refused, and so is a second size for a dimension. *)
Definition add_dimension (scalar_vars : list string) (sizes : list (string * nat))
    (e : string * nat) : result (list (string * nat)) :=
  if bool_decide (e.1 ∈ scalar_vars) then Raise ValueError
  else match list_find (fun d => d.1 = e.1) sizes with
       | None => Ret (sizes ++ [e])%list
       | Some (_, (_, size)) => if (size =? e.2)%nat then Ret sizes else Raise ValueError
       end.

(** [calculate_dimensions(variables)]: the sizes of the dimensions of the
    variables, each dimension once, first use first; [ValueError] when
    two uses of a dimension disagree on its size. *)
Definition calculate_dimensions (vs : list (string * xr_Variable))
    : result (list (string * nat)) :=
  let scalar_vars := (filter (fun e => dims e.2 = []) vs).*1 in
  for_each (fun sizes e =>
              for_each (add_dimension scalar_vars) sizes (zip (dims e.2) (shape (data e.2))))
           [] vs.

(** [ds[name] = v] for a [Variable] [v]: the dimensions are calculated
    anew from all variables; a variable named after its only dimension
    is a coordinate. *)
Definition ds_setitem (name : string) (v : xr_Variable) (ds : Dataset) : result Dataset :=
  let vs := vars_set name v (variables ds) in
  sizes ← calculate_dimensions vs;
  Ret (mkDataset sizes vs
         (if bool_decide (dims v = [name] ∧ name ∉ coord_names ds)
          then (coord_names ds ++ [name])%list else coord_names ds)).

(** [len(ds.name)]: the variable of that name, else the dimension. *)
Definition len_getattr (ds : Dataset) (name : string) : result nat :=
  match vars_lookup name (variables ds) with
  | Some v =>
      match shape (data v) with
      | n :: _ => Ret n
      | [] => Raise TypeError
      end
  | None =>
      match list_find (fun e => e.1 = name) (ds_dims ds) with
      | Some (_, (_, n)) => Ret n
      | None => Raise AttributeError
      end
  end.

(** [ds.set_coords(names)] *)
Definition set_coords (names : list string) (ds : Dataset) : result Dataset :=
  if bool_decide (Forall (fun n => is_Some (vars_lookup n (variables ds))) names)
  then Ret (mkDataset (ds_dims ds) (variables ds)
              (coord_names ds ++ filter (fun n => n ∉ coord_names ds) names)%list)
  else Raise ValueError.

(** [ds[name].attrs.update(new)]; [ds[name]] is a [KeyError] unless
    [name] is a variable or a dimension. *)
Definition getitem_attrs_update (name : string) (new : Attrs) (ds : Dataset) : result Dataset :=
  if bool_decide (is_Some (vars_lookup name (variables ds))) || in_dims name ds
  then Ret (dim_attrs_update name (fun a => new ∪ a) ds)
  else Raise KeyError.

Section PopAxes.
(** The functions run in the namespace [globals] of their module. *)
Variable globals : list (string * py_module).

(** One statement [ds_new[name] = _xr.Variable((name), np.arange(len(ds.len_of)) + off, attrs)].
    [_xr.Variable] and [np.arange] are evaluated before the arguments. *)
Definition assign_axis (ds : Dataset) (name len_of : string) (off : pyval) (attrs : Attrs)
    (ds_new : Dataset) : result Dataset :=
  _ ← global globals "_xr";
  np ← global globals "np";
  n ← len_getattr ds len_of;
  values ← arange_plus np n off;
  v ← Variable_new (DimsStr name) values attrs ∅;
  ds_setitem name v ds_new.

(** [ds.copy()] is a dataset of its own over the same data: the value
    [ds] again. *)
Definition _add_pop_dims_to_dataset (ds : Dataset) : result Dataset :=
  let ds_new := ds in
  ds_new ← assign_axis ds "XU" "nlon" (VInt 1)
             {[ "axis" := VStr "X"; "c_grid_axis_shift" := VFloat true "0.5" ]} ds_new;
  ds_new ← assign_axis ds "YU" "nlat" (VInt 1)
             {[ "axis" := VStr "Y"; "c_grid_axis_shift" := VFloat true "0.5" ]} ds_new;
  ds_new ← assign_axis ds "XT" "nlon" (VFloat true "0.5") {[ "axis" := VStr "X" ]} ds_new;
  ds_new ← assign_axis ds "XT" "nlat" (VFloat true "0.5") {[ "axis" := VStr "Y" ]} ds_new;
  ds_new ← set_coords ["z_t"; "z_w"; "z_w_top"; "z_w_bot"] ds_new;
  ds_new ← getitem_attrs_update "Z_t" {[ "axis" := VStr "Z" ]} ds_new;
  ds_new ← getitem_attrs_update "Z_w"
             {[ "axis" := VStr "Z"; "c_grid_axis_shift" := VFloat true "-0.5" ]} ds_new;
  ds_new ← getitem_attrs_update "Z_w_top"
             {[ "axis" := VStr "Z"; "c_grid_axis_shift" := VFloat true "-0.5" ]} ds_new;
  ds_new ← getitem_attrs_update "Z_w_bot"
             {[ "axis" := VStr "Z"; "c_grid_axis_shift" := VFloat true "0.5" ]} ds_new;
  Ret ds_new.

End PopAxes.

(** The table [grid_locs] of [_label_coord_grid_locs]. *)
Definition grid_locs : list (string * string) :=
  [("ANGLE", "2220"); ("ANGLET", "2110"); ("DXT", "2110"); ("DXU", "2220");
   ("DYT", "2110"); ("DYU", "2220"); ("HT", "2110"); ("HU", "2220");
   ("HTE", "2210"); ("HTN", "2120"); ("HUS", "2210"); ("HUW", "2120");
   ("KMT", "2110"); ("KMU", "2220"); ("REGION_MASK", "2110");
   ("TAREA", "2110"); ("TLAT", "2110"); ("TLONG", "2110"); ("UAREA", "2220");
   ("ULAT", "2220"); ("ULONG", "2220"); ("ADVU", "3221"); ("ADVV", "3221");
   ("DIA_IMPVF_SALT", "3112"); ("DIA_IMPVF_TEMP", "3112");
   ("EVAP_F", "2110"); ("GRADX", "3221"); ("GRADY", "3221");
   ("HBLT", "2110"); ("HMXL", "2110"); ("HDIFB_SALT", "3112");
   ("HDIFB_TEMP", "3112"); ("HDIFE_SALT", "3211"); ("HDIFE_TEMP", "3211");
   ("HDIFN_SALT", "3121"); ("HDIFN_TEMP", "3121"); ("HDIFFU", "3221");
   ("HDIFFV", "3221"); ("KPP_SRC_SALT", "3111"); ("KPP_SRC_TEMP", "3111");
   ("LWDN_F", "2110"); ("LWUP_F", "2110"); ("MELTH_F", "2110");
   ("MELT_F", "2110"); ("PD", "3111"); ("PREC_F", "2110"); ("QFLUX", "2110");
   ("QSW_3D", "3111"); ("ROFF_F", "2110"); ("SALT", "3111");
   ("SALT_F", "2110"); ("SENH_F", "2110"); ("SFWF", "2110");
   ("SFWF_WRST", "2110"); ("SHF", "2110"); ("SHF_QSW", "2110");
   ("SNOW_F", "2110"); ("SSH", "2110"); ("SSH2", "2110"); ("SU", "2220");
   ("SV", "2220"); ("TAUX", "2220"); ("TAUY", "2220"); ("TBLT", "2110");
   ("TEMP", "3111"); ("TEND_TEMP", "3111"); ("TEND_SALT", "3111");
   ("TMXL", "2110"); ("UES", "3211"); ("UET", "3211"); ("UV", "3221");
   ("UVEL", "3221"); ("UVEL2", "3221"); ("VVEL", "3221"); ("VVEL2", "3221");
   ("VDIFFU", "3221"); ("VDIFFV", "3221"); ("VNS", "3121"); ("VNT", "3121");
   ("WTS", "3112"); ("WTT", "3112"); ("WVEL", "3222"); ("XBLT", "2110");
   ("XMXL", "2110")].

Fixpoint grid_locs_lookup (name : string) (t : list (string * string)) : option string :=
  match t with
  | [] => None
  | (n, code) :: t' => if decide (n = name) then Some code else grid_locs_lookup name t'
  end.

(** The loop writes the attribute of each registered variable of the
    copy; [ds_new[var]] for a variable never raises. *)
Definition _label_coord_grid_locs (ds : Dataset) : Dataset :=
  let ds_new := ds in
  foldl (fun ds_new var =>
           match grid_locs_lookup var grid_locs with
           | Some code => dim_attrs_update var (<["grid_loc" := VStr code]>) ds_new
           | None => ds_new
           end)
        ds_new (variables ds_new).*1.

(** [t[0]] on a tuple of names. *)
Definition tuple_head (t : list string) : result string :=
  match t with
  | d :: _ => Ret d
  | [] => Raise IndexError
  end.

Section PopRelabel.
Variable globals : list (string * py_module).

(** Body of [for vname in ds_new.variables] in [_relabel_pop_dims]. *)
Definition relabel_variable (ds_new : Dataset) (vname : string) : result Dataset :=
  match vars_lookup vname (variables ds_new) with
  | None => Raise KeyError
  | Some da =>
      match attrs da !! "grid_loc" with
      | None => Ret ds_new
      | Some grid_loc =>
          let dims_orig := dims da in
          new_spatial_dims ← _dims_from_grid_loc grid_loc;
          d0 ← tuple_head dims_orig;
          dims ← (if String.eqb d0 "Nt"
                  then match new_spatial_dims with
                       | Some t => Ret (DimsTuple ("Nt" :: t))
                       | None => Raise TypeError
                       end
                  else Ret (match new_spatial_dims with
                            | Some t => DimsTuple t
                            | None => DimsNone
                            end));
          _ ← global globals "_xr";
          v ← Variable_new dims (data da) (attrs da) (encoding da);
          ds_setitem vname v ds_new
      end
  end.

Definition _relabel_pop_dims (ds : Dataset) : result Dataset :=
  let ds_new := _label_coord_grid_locs ds in
  ds_new ← _add_pop_dims_to_dataset globals ds_new;
  for_each relabel_variable ds_new (variables ds_new).*1.

End PopRelabel.

(** ** The placement code as it is specified *)

(** The staggering vocabularies of the specification, as tables from
    digit to name: one for both horizontal axes, one for the vertical. *)
Definition horizontal_table : list (Z * string) := [(1, "XT"); (2, "XU")].
Definition vertical_table : list (Z * string) := [(0, "surface"); (1, "z_t"); (2, "z_w")].

Fixpoint table_lookup (t : list (Z * string)) (k : Z) : option string :=
  match t with
  | [] => None
  | (k', name) :: t' => if k' =? k then Some name else table_lookup t' k
  end.

Definition digit_char (k : Z) : ascii := ascii_of_nat (48 + Z.to_nat k).

(** The code [abcd] written with the digits [a], [b], [c], [d]. *)
Definition placement_code (a b c d : Z) : string :=
  String (digit_char a) (String (digit_char b) (String (digit_char c)
    (String (digit_char d) EmptyString))).

(** ** The axis spec and the attributes it gives *)

(** The axis spec read as the sequence of (axis, (dimension, shift))
    entries the two nested loops go through. *)
Definition coords_entries (coords : Coords) : list (string * (string * pyval)) :=
  flat_map (fun item => map (fun entry => (item.1, entry)) item.2) (coords_items coords).

(** The dimension names of the spec, in that order. *)
Definition spec_dims (coords : Coords) : list string := (coords_entries coords).*2.*1.

(** What one entry does to the attributes of the dimension [name]. *)
Definition comodo_entry (name : string) (a : Attrs) (e : string * (string * pyval)) : Attrs :=
  if decide (e.2.1 = name) then
    let a := <["axis" := VStr e.1]> a in
    if py_truthy e.2.2 then <["c_grid_axis_shift" := VStr (py_str e.2.2)]> a else a
  else a.

(** What a whole call does to the attributes of the variable [name] of
    a dataset with dimensions [ds]. *)
Definition comodo_attrs (ds : list string) (es : list (string * (string * pyval)))
    (name : string) (a : Attrs) : Attrs :=
  if decide (name ∈ ds)
  then foldl (comodo_entry name) (delete "c_grid_axis_shift" (delete "axis" a)) es
  else a.

(** A dataset [ds'] is [ds] with the attributes of each variable [n]
    rewritten by [F n]; dimensions, names and coordinates are those of [ds]. *)
Definition rewritten (F : string → Attrs → Attrs) (ds ds' : Dataset) : Prop :=
  ds_dims ds' = ds_dims ds ∧ coord_names ds' = coord_names ds ∧
  (variables ds').*1 = (variables ds).*1 ∧
  ∀ n, vars_lookup n (variables ds') = with_attrs (F n) <$> vars_lookup n (variables ds).

(** The two nested loops are one loop over the entries. *)
Definition add_comodo_entry (st : Dataset * list string) (e : string * (string * pyval))
    : Dataset * list string :=
  add_comodo_dim e.1 st e.2.

(** Nothing in the dataset is called [name]: no variable, and no
    dimension of a variable. *)
Definition unnamed (name : string) (vs : list (string * xr_Variable)) : Prop :=
  Forall (fun e => e.1 ≠ name ∧ name ∉ dims e.2) vs.

(** ** Sample data *)

(** A stand-in for [xgcm.Grid] that runs: the grid is the list of its
    axes, the ['axis'] attributes found on the dimensions (comodo). *)
Definition comodo_axes (ds : Dataset) : list pyval :=
  remove_dups (omap (fun d => attrs_of ds d !! "axis") (dim_names ds)).

Definition comodo_Grid (ds : Dataset) (periodic : list string) (fc : option unit)
    : result (list pyval) :=
  Ret (comodo_axes ds).

(** A dataset with two dimensions along x, each with its coordinate, and
    one data variable; the coordinate [X] arrives with comodo attributes
    of an earlier grid. *)
Definition sample_dataset : Dataset :=
  mkDataset [("X", 4%nat); ("Xp1", 5%nat)]
    [("X", mkVariable ["X"] (Buffer 0 [4%nat])
             {[ "axis" := VStr "Q"; "c_grid_axis_shift" := VStr "0.5";
                "units" := VStr "m" ]} ∅);
     ("Xp1", mkVariable ["Xp1"] (Buffer 1 [5%nat]) ∅ ∅);
     ("T", mkVariable ["X"] (Buffer 2 [4%nat]) {[ "axis" := VStr "kept" ]} ∅)]
    ["X"; "Xp1"].

Definition sample_coords : Coords :=
  Some [("X", [("X", VNone); ("Xp1", VFloat true "0.5"); ("Xp2", VNone)]);
        ("Y", [("Y", VNone)])].

Definition zero_shift_coords : Coords := Some [("X", [("Xp1", VInt 0)])].

(** A dataset whose dimension [X] has no coordinate variable, and an
    axis spec that names it. *)
Definition uncoordinated_dataset : Dataset :=
  mkDataset [("X", 4%nat)] [("T", mkVariable ["X"] (Buffer 0 [4%nat]) ∅ ∅)] [].

Definition uncoordinated_coords : Coords := Some [("X", [("X", VNone)])].

(** An axis spec that names the dimension [X] under two axes. *)
Definition twice_named_coords : Coords :=
  Some [("X", [("X", VFloat true "0.5")]); ("Y", [("X", VNone)])].

(** ** POP sample data *)

(** The namespace the POP functions would need: [np] bound to numpy. *)
Definition np_bound : list (string * py_module) := ("np", numpy) :: module_globals.

Definition pop_coordinates : list (string * xr_Variable) :=
  [("z_t", mkVariable ["z_t"] (Buffer 0 [2%nat]) ∅ ∅);
   ("z_w", mkVariable ["z_w"] (Buffer 1 [2%nat]) ∅ ∅);
   ("z_w_top", mkVariable ["z_w_top"] (Buffer 2 [2%nat]) ∅ ∅);
   ("z_w_bot", mkVariable ["z_w_bot"] (Buffer 3 [2%nat]) ∅ ∅)].

Definition pop_dims : list (string * nat) :=
  [("z_t", 2%nat); ("z_w", 2%nat); ("z_w_top", 2%nat); ("z_w_bot", 2%nat);
   ("nlat", 3%nat); ("nlon", 4%nat)].

(** POP output with the registered field [TEMP] and one field the
    registry does not list. *)
Definition pop_dataset : Dataset :=
  mkDataset pop_dims
    (pop_coordinates ++
     [("TEMP", mkVariable ["z_t"; "nlat"; "nlon"] (Buffer 4 [2%nat; 3%nat; 4%nat])
                 {[ "units" := VStr "degC" ]} ∅);
      ("UNLISTED", mkVariable ["nlat"; "nlon"] (Buffer 5 [3%nat; 4%nat]) ∅ ∅)])
    ["z_t"; "z_w"; "z_w_top"; "z_w_bot"].

(** POP output without any registered field. *)
Definition unregistered_dataset : Dataset :=
  mkDataset pop_dims
    (pop_coordinates ++
     [("UNLISTED", mkVariable ["nlat"; "nlon"] (Buffer 5 [3%nat; 4%nat]) ∅ ∅)])
    ["z_t"; "z_w"; "z_w_top"; "z_w_bot"].

(** [pop_dataset] with variables under the capitalised names that
    [_add_pop_dims_to_dataset] looks up. *)
Definition pop_dataset_capitalised : Dataset :=
  mkDataset pop_dims
    (variables pop_dataset ++
     [("Z_t", mkVariable ["z_t"] (Buffer 6 [2%nat]) ∅ ∅);
      ("Z_w", mkVariable ["z_w"] (Buffer 7 [2%nat]) ∅ ∅);
      ("Z_w_top", mkVariable ["z_w_top"] (Buffer 8 [2%nat]) ∅ ∅);
      ("Z_w_bot", mkVariable ["z_w_bot"] (Buffer 9 [2%nat]) ∅ ∅)])
    ["z_t"; "z_w"; "z_w_top"; "z_w_bot"].

(** ** Reading the outcome of the decoder *)

(** [c] is one of ['0'] ... ['9']. *)
Definition is_digit (c : ascii) : bool :=
  let n := Z.of_nat (nat_of_ascii c) in (48 <=? n) && (n <=? 57).

(** ** What the loops do to the attributes of one variable *)

(** Tagging: the entry of the registry, if the name has one. *)
Definition grid_loc_attr (name : string) (a : Attrs) : Attrs :=
  match grid_locs_lookup name grid_locs with
  | Some code => <["grid_loc" := VStr code]> a
  | None => a
  end.

(** ** [_rename_coord_attrs] and [_restore_coord_attrs] *)

(** The body of both loops on the attributes of one variable:
    [coordinates = attrs.pop(old, None)], and [attrs[new] = coordinates]
    unless [coordinates] is [None]. *)
Definition move_attr (old new : string) (a : Attrs) : Attrs :=
  let coordinates := default VNone (a !! old) in
  let attrs := delete old a in
  if decide (coordinates = VNone) then attrs else <[new := coordinates]> attrs.

(** Both functions work on the dataset they are given and return it:
    the result is also what the caller's dataset has become. *)
Definition _rename_coord_attrs (ds : Dataset) : Dataset :=
  foldl (fun ds var => dim_attrs_update var (move_attr "coordinates" "_coordinates") ds)
        ds (variables ds).*1.

Definition _restore_coord_attrs (ds : Dataset) : Dataset :=
  foldl (fun ds var => dim_attrs_update var (move_attr "_coordinates" "coordinates") ds)
        ds (variables ds).*1.

(** A dataset as [xarray] writes it out: with a ['coordinates']
    attribute on a data variable. *)
Definition dataset_with_coordinates : Dataset :=
  mkDataset [("X", 4%nat)]
    [("X", mkVariable ["X"] (Buffer 0 [4%nat]) {[ "units" := VStr "m" ]} ∅);
     ("T", mkVariable ["X"] (Buffer 1 [4%nat])
             {[ "coordinates" := VStr "XC YC"; "units" := VStr "degC" ]} ∅)]
    ["X"].

(** ** Argument checks *)

(** The objects that reach the checks as arguments: [None], a bool, an
    int, a str, a list of str, or a list of lists of str (a first row
    and the others). *)
Inductive py_obj : Type :=
  | ONone
  | OBool (b : bool)
  | OInt (z : Z)
  | OStr (s : string)
  | OList (l : list string)
  | ONested (row : list string) (rows : list (list string)).

(** The classes asked for: one name or a list of names; for all objects
    or by the name of the object. *)
Inductive classinfo : Type :=
  | ClsStr (s : string)
  | ClsList (l : list string).

Inductive classinfos : Type :=
  | InfoStr (s : string)
  | InfoDict (d : list (string * classinfo)).

Fixpoint classinfos_getitem (key : string) (d : list (string * classinfo)) : result classinfo :=
  match d with
  | [] => Raise KeyError
  | (k, c) :: d' => if decide (k = key) then Ret c else classinfos_getitem key d'
  end.

(** The class names asked of the object called [key]:
    [classinfo = classinfos] or [classinfos[key]], and a single name as
    the list of it. *)
Definition classes_asked (classinfos : classinfos) (key : string) : result (list string) :=
  classinfo ← match classinfos with
              | InfoStr s => Ret (ClsStr s)
              | InfoDict d => classinfos_getitem key d
              end;
  Ret (match classinfo with
       | ClsStr s => [s]
       | ClsList l => l
       end).

Section CheckInstance.
Context {Obj : Type}.
(** [eval('isinstance(value, <name>)')], after the [import] of the
    package of a dotted name. *)
Variable isinstance_eval : Obj → string → result bool.

(** [for this_classinfo in classinfo: check = check + [eval(...)]] *)
Fixpoint eval_checks (value : Obj) (classinfo : list string) : result (list bool) :=
  match classinfo with
  | [] => Ret []
  | this_classinfo :: classinfo' =>
      b ← isinstance_eval value this_classinfo;
      check ← eval_checks value classinfo';
      Ret (b :: check)
  end.

(** Body of [for key, value in objs.items()]. *)
Definition check_instance_item (classinfos : classinfos) (_ : unit) (item : string * Obj)
    : result unit :=
  classinfo ← classes_asked classinfos item.1;
  check ← eval_checks item.2 classinfo;
  if negb (existsb (fun b => b) check) then Raise TypeError else Ret tt.

Definition _check_instance (objs : list (string * Obj)) (classinfos : classinfos)
    : result unit :=
  for_each (check_instance_item classinfos) tt objs.
End CheckInstance.

(** [isinstance(value, cls)] for the builtin classes that the objects
    above can belong to. *)
Definition isinstance_builtin (value : py_obj) (cls : string) : option bool :=
  if String.eqb cls "bool" then Some (match value with OBool _ => true | _ => false end)
  else if String.eqb cls "int"
  then Some (match value with OBool _ | OInt _ => true | _ => false end)
  else if String.eqb cls "str" then Some (match value with OStr _ => true | _ => false end)
  else if String.eqb cls "list"
  then Some (match value with OList _ | ONested _ _ => true | _ => false end)
  else None.

(** The evaluation of [isinstance(value, cls)]: the builtin classes
    above, and [other] for any other name. *)
Definition isinstance_py (other : py_obj → string → result bool) (value : py_obj)
    (cls : string) : result bool :=
  match isinstance_builtin value cls with
  | Some b => Ret b
  | None => other value cls
  end.

(** A str as an element of a numpy array of dtype ['str']: the trailing
    NUL characters are lost. *)
Fixpoint numpy_str (s : string) : string :=
  match s with
  | EmptyString => EmptyString
  | String c s' =>
      match numpy_str s' with
      | EmptyString => if Ascii.eqb c "000" then EmptyString else String c EmptyString
      | r => String c r
      end
  end.

(** [numpy.asarray(obj, dtype='str')] as the number of axes and the
    elements in order; numpy refuses rows of different lengths. *)
Definition asarray_str (obj : py_obj) : result (nat * list string) :=
  match obj with
  | ONone => Ret (0%nat, ["None"])
  | OBool b => Ret (0%nat, [if b then "True" else "False"])
  | OInt z => Ret (0%nat, [py_str (VInt z)])
  | OStr s => Ret (0%nat, [numpy_str s])
  | OList l => Ret (1%nat, numpy_str <$> l)
  | ONested row rows =>
      if forallb (fun r => (length r =? length row)%nat) rows
      then Ret (2%nat, numpy_str <$> concat (row :: rows))
      else Raise ValueError
  end.

(** What [_check_list_of_string] returns: [None] as it is, or an array
    of one axis, given as the list of its elements. *)
Inductive str_array : Type :=
  | NoArray
  | Array (l : list string).

Definition _check_list_of_string (obj : py_obj) (objName : string) : result str_array :=
  match obj with
  | ONone => Ret NoArray
  | _ =>
      arr ← asarray_str obj;
      if (arr.1 =? 0)%nat then Ret (Array arr.2)
      else if (1 <? arr.1)%nat then Raise TypeError
      else Ret (Array arr.2)
  end.

(** What this code reads of an [OceanDataset]. *)
Record OceanDataset : Type := mkOceanDataset {
  _ds : Dataset;
  _aliases_flipped : option (gmap string string);
  grid_coords : Coords
}.

(** [varNameListIN] in [_rename_aliased]: the list built from the
    aliases, or what [_check_list_of_string] returned. *)
Inductive names_in : Type :=
  | InList (l : list string)
  | InArray (a : str_array).

(** What is handed back to the caller: one of the objects above, or a
    numpy array of str of one axis, given as the list of its elements. *)
Inductive py_value : Type :=
  | Obj (obj : py_obj)
  | NdArray (l : list string).

Definition names_in_value (names : names_in) : py_value :=
  match names with
  | InList l => Obj (OList l)
  | InArray (Array l) => NdArray l
  | InArray NoArray => Obj ONone
  end.

Section Aliases.
(** The check of [od] names the class ['oceanspy.OceanDataset'], which
    takes an [import]. *)
Variable isinstance_od : OceanDataset → string → result bool.

Definition _rename_aliased (od : OceanDataset) (varNameList : py_obj) : result py_value :=
  _ ← _check_instance isinstance_od [("od", od)] (InfoStr "oceanspy.OceanDataset");
  let isstr := match varNameList with OStr _ => true | _ => false end in
  varNameList ← _check_list_of_string varNameList "varNameList";
  varNameListIN ←
    match _aliases_flipped od with
    | Some aliases =>
        match varNameList with
        | Array l =>
            Ret (InList ((fun varName => default varName (aliases !! varName)) <$> l))
        | NoArray => Raise TypeError
        end
    | None => Ret (InArray varNameList)
    end;
  if isstr then
    match varNameListIN with
    | InList (varName :: _) | InArray (Array (varName :: _)) => Ret (Obj (OStr varName))
    | InList [] | InArray (Array []) => Raise IndexError
    | InArray NoArray => Raise TypeError
    end
  else Ret (names_in_value varNameListIN).

Definition _handle_aliased (od : OceanDataset) (aliased : bool) (varNameList : py_obj)
    : result (py_value * py_obj) :=
  varNameListIN ← (if aliased then _rename_aliased od varNameList
                   else Ret (Obj varNameList));
  let varNameListOUT := varNameList in
  Ret (varNameListIN, varNameListOUT).
End Aliases.

(** [x in exclude] for a str [x] and a list [exclude]: a str is equal
    to no list. *)
Definition in_list (x : string) (exclude : py_obj) : bool :=
  match exclude with
  | OList l => bool_decide (x ∈ l)
  | _ => false
  end.

(** [meanAxes] and [intAxes] after the conversion: a bool is kept, any
    other object is what [_check_list_of_string] returns. *)
Inductive axes : Type :=
  | AxesBool (b : bool)
  | AxesArray (l : list string)
  | AxesNone.

Definition is_True (a : axes) : bool :=
  match a with AxesBool true => true | _ => false end.
Definition is_False (a : axes) : bool :=
  match a with AxesBool false => true | _ => false end.

(** [if not isinstance(obj, bool): obj = _check_list_of_string(obj, objName)] *)
Definition convert_axes (obj : py_obj) (objName : string) : result axes :=
  match obj with
  | OBool b => Ret (AxesBool b)
  | _ =>
      arr ← _check_list_of_string obj objName;
      Ret (match arr with Array l => AxesArray l | NoArray => AxesNone end)
  end.

(** The branches under [# Get axes to pass], which are the same for
    [meanAxes] and [intAxes]. *)
Definition axes_to_pass (od : OceanDataset) (a : axes) (exclude : py_obj) : result axes :=
  match a with
  | AxesBool true =>
      match grid_coords od with
      | Some items =>
          Ret (AxesArray (filter (fun coord => in_list coord exclude = false) items.*1))
      | None => Raise TypeError
      end
  | AxesBool false => Ret a
  | AxesArray l =>
      if existsb (fun axis => in_list axis exclude) l then Raise ValueError else Ret a
  | AxesNone => Raise TypeError
  end.

Section MeanAndIntAxes.
Variable isinstance_other : py_obj → string → result bool.

Definition _check_mean_and_int_axes (od : OceanDataset) (meanAxes intAxes exclude : py_obj)
    : result (axes * axes) :=
  _ ← _check_instance (isinstance_py isinstance_other)
        [("meanAxes", meanAxes); ("intAxes", intAxes); ("exclude", exclude)]
        (InfoDict [("meanAxes", ClsList ["bool"; "list"; "str"]);
                   ("intAxes", ClsList ["bool"; "list"; "str"]);
                   ("exclude", ClsStr "list")]);
  meanAxes ← convert_axes meanAxes "meanAxes";
  intAxes ← convert_axes intAxes "intAxes";
  let check1 := is_True meanAxes && negb (is_False intAxes) in
  let check2 := is_True intAxes && negb (is_False meanAxes) in
  if check1 || check2 then Raise ValueError
  else
    meanAxes ← axes_to_pass od meanAxes exclude;
    intAxes ← axes_to_pass od intAxes exclude;
    Ret (meanAxes, intAxes).
End MeanAndIntAxes.

(** A str without NUL characters, which numpy keeps as it is. *)
Fixpoint no_nul (s : string) : Prop :=
  match s with
  | EmptyString => True
  | String c s' => Ascii.eqb c "000" = false ∧ no_nul s'
  end.

(** * Properties of the decoder *)

Lemma horizontal_table_inv (k : Z) (name : string) :
  table_lookup horizontal_table k = Some name →
  (k = 1 ∧ name = "XT") ∨ (k = 2 ∧ name = "XU").
Proof.
  unfold horizontal_table; cbn [table_lookup].
  repeat case_match; intros Heq; simplify_eq; auto;
    repeat match goal with H : (_ =? _) = true |- _ => apply Z.eqb_eq in H end;
    subst; auto.
Qed.

Lemma vertical_table_inv (k : Z) (name : string) :
  table_lookup vertical_table k = Some name →
  (k = 0 ∧ name = "surface") ∨ (k = 1 ∧ name = "z_t") ∨ (k = 2 ∧ name = "z_w").
Proof.
  unfold vertical_table; cbn [table_lookup].
  repeat case_match; intros Heq; simplify_eq; auto;
    repeat match goal with H : (_ =? _) = true |- _ => apply Z.eqb_eq in H end;
    subst; auto.
Qed.

(** The decoder only looks at the string form of its argument. *)
Lemma dims_from_grid_loc_str (v : pyval) :
  _dims_from_grid_loc v = _dims_from_grid_loc (VStr (py_str v)).
Proof. reflexivity. Qed.

Ltac decode_cases :=
  repeat match goal with
         | H : table_lookup horizontal_table _ = Some _ |- _ =>
             apply horizontal_table_inv in H; destruct H as [[-> ->] | [-> ->]]
         | H : table_lookup vertical_table _ = Some _ |- _ =>
             apply vertical_table_inv in H;
             destruct H as [[-> ->] | [[-> ->] | [-> ->]]]
         end.

(** C1: on a well-formed code [abcd] (in string or integer form) the
    decoder maps [b] and [c] through the one horizontal table and [d]
    through the vertical table; it returns [(Y, X)] when [a] is 3 and the
    vertical name is ['surface'], [(Z, Y, X)] when [a] is 3 and it is not,
    and [(Z, Y, X)] whenever [a] is 2.  In particular ["3111"] gives
    [('z_t', 'XT', 'XT')]. *)
Theorem dims_from_grid_loc_well_formed (v : pyval) (a b c d : Z) (X Y Zn : string) :
  py_str v = placement_code a b c d →
  table_lookup horizontal_table b = Some X →
  table_lookup horizontal_table c = Some Y →
  table_lookup vertical_table d = Some Zn →
  (a = 3 → Zn = "surface" → _dims_from_grid_loc v = Ret (Some [Y; X])) ∧
  (a = 3 → Zn ≠ "surface" → _dims_from_grid_loc v = Ret (Some [Zn; Y; X])) ∧
  (a = 2 → _dims_from_grid_loc v = Ret (Some [Zn; Y; X])) ∧
  _dims_from_grid_loc (VStr "3111") = Ret (Some ["z_t"; "XT"; "XT"]).
Proof.
  intros Hv Hb Hc Hd. rewrite (dims_from_grid_loc_str v), Hv.
  decode_cases; repeat split; intros ->; try intros Hs;
    first [ reflexivity | discriminate Hs | exfalso; apply Hs; reflexivity ].
Qed.

Lemma dims_from_grid_loc_well_formed_witness :
  _dims_from_grid_loc (VInt 3110) = Ret (Some ["XT"; "XT"]) ∧
  _dims_from_grid_loc (VStr "2220") = Ret (Some ["surface"; "XU"; "XU"]).
Proof.
  split.
  - apply (dims_from_grid_loc_well_formed (VInt 3110) 3 1 1 0 "XT" "XT" "surface");
      reflexivity.
  - apply (dims_from_grid_loc_well_formed (VStr "2220") 2 2 2 0 "XU" "XU" "surface");
      reflexivity.
Defined.

(** C10: a four-character code with valid staggering digits whose first
    digit is neither 2 nor 3 makes the decoder return [None]: no
    exception, no tuple. *)
Theorem dims_from_grid_loc_other_ndim (v : pyval) (a b c d : Z) (X Y Zn : string) :
  py_str v = placement_code a b c d →
  0 ≤ a ≤ 9 → a ≠ 2 → a ≠ 3 →
  table_lookup horizontal_table b = Some X →
  table_lookup horizontal_table c = Some Y →
  table_lookup vertical_table d = Some Zn →
  _dims_from_grid_loc v = Ret None.
Proof.
  intros Hv Ha H2 H3 Hb Hc Hd. rewrite (dims_from_grid_loc_str v), Hv.
  assert (a = 0 ∨ a = 1 ∨ a = 4 ∨ a = 5 ∨ a = 6 ∨ a = 7 ∨ a = 8 ∨ a = 9) as Hcases by lia.
  decode_cases;
    destruct Hcases as [-> | [-> | [-> | [-> | [-> | [-> | [-> | ->]]]]]]]; reflexivity.
Qed.

Lemma dims_from_grid_loc_other_ndim_witness :
  _dims_from_grid_loc (VStr "4111") = Ret None.
Proof.
  apply (dims_from_grid_loc_other_ndim (VStr "4111") 4 1 1 1 "XT" "XT" "z_t");
    first [ reflexivity | lia ].
Defined.

Lemma int_of_char_cases (c : ascii) :
  (∃ n, int_of_char c = Ret n) ∨ int_of_char c = Raise ValueError.
Proof. unfold int_of_char. case_match; eauto. Qed.




(** * Properties of [_create_grid] *)

Lemma with_attrs_id (v : xr_Variable) : with_attrs (fun a => a) v = v.
Proof. by destruct v. Qed.

Lemma vars_lookup_alter (f : xr_Variable → xr_Variable) (n k : string)
    (vs : list (string * xr_Variable)) :
  vars_lookup k (vars_alter f n vs)
  = if decide (n = k) then f <$> vars_lookup k vs else vars_lookup k vs.
Proof.
  induction vs as [| [m v] vs IH]; cbn.
  - by case_decide.
  - destruct (decide (m = n)) as [Hmn | Hmn]; cbn;
      destruct (decide (m = k)) as [Hmk | Hmk]; subst;
      rewrite ?IH; repeat case_decide; by simplify_eq.
Qed.

Lemma vars_alter_names (f : xr_Variable → xr_Variable) (n : string)
    (vs : list (string * xr_Variable)) :
  (vars_alter f n vs).*1 = vs.*1.
Proof.
  induction vs as [| [m v] vs IH]; cbn; [done |].
  case_decide; cbn; [done | by rewrite IH].
Qed.

Lemma rewritten_update (F : string → Attrs → Attrs) (ds ds' : Dataset)
    (d : string) (f : Attrs → Attrs) :
  rewritten F ds ds' →
  rewritten (fun n a => if decide (d = n) then f (F n a) else F n a)
            ds (dim_attrs_update d f ds').
Proof.
  intros (Hd & Hc & Hn & Hl). repeat split; cbn; try done.
  - by rewrite vars_alter_names.
  - intros n. rewrite vars_lookup_alter, Hl.
    destruct (vars_lookup n (variables ds)) as [v |]; cbn; by case_decide.
Qed.

Lemma rewritten_ext (F G : string → Attrs → Attrs) (ds ds' : Dataset) :
  (∀ n a, F n a = G n a) → rewritten F ds ds' → rewritten G ds ds'.
Proof.
  intros HFG (Hd & Hc & Hn & Hl). repeat split; try done.
  intros n. rewrite Hl. destruct (vars_lookup n (variables ds)) as [v |]; cbn; [| done].
  unfold with_attrs. by rewrite HFG.
Qed.

Lemma rewritten_refl (ds : Dataset) : rewritten (fun _ a => a) ds ds.
Proof.
  repeat split. intros n. destruct (vars_lookup n (variables ds)); cbn; [| done].
  by rewrite with_attrs_id.
Qed.

Ltac attrs_eq :=
  apply map_eq; intros ?;
  repeat first [ rewrite lookup_delete | rewrite lookup_insert ];
  repeat case_decide; simplify_eq; done.

Lemma cleanup_comodo_rewritten (ds : Dataset) :
  rewritten (fun n a => if decide (n ∈ dim_names ds)
                        then delete "c_grid_axis_shift" (delete "axis" a) else a)
            ds (cleanup_comodo ds).
Proof.
  unfold cleanup_comodo. induction (dim_names ds) as [| d l IH] using rev_ind.
  - eapply rewritten_ext; cycle 1; [apply rewritten_refl |].
    intros n a. cbn. by rewrite decide_False by apply not_elem_of_nil.
  - rewrite foldl_app. cbn [foldl].
    eapply rewritten_ext; cycle 1; [apply rewritten_update, rewritten_update, IH |].
    intros n a. cbn.
    destruct (decide (d = n)) as [-> | Hdn].
    + rewrite (decide_True (P := n ∈ l ++ [n]))
        by (apply elem_of_app; right; apply list_elem_of_here).
      case_decide; attrs_eq.
    + destruct (decide (n ∈ l)) as [Hin | Hin].
      * by rewrite decide_True by (apply elem_of_app; by left).
      * rewrite decide_False; [done |].
        rewrite elem_of_app, list_elem_of_singleton. by intros [? | ->].
Qed.

Lemma add_comodo_entries (dataset : Dataset) (coords : Coords) :
  add_comodo dataset coords = foldl add_comodo_entry (dataset, []) (coords_entries coords).
Proof.
  unfold add_comodo, coords_entries. generalize (dataset, @nil string) as st.
  induction (coords_items coords) as [| [axis m] items IH]; intros st; cbn; [done |].
  rewrite foldl_app, IH. f_equal. unfold add_comodo_axis. cbn.
  clear IH. revert st. induction m as [| e m IHm]; intros st; cbn; [done |].
  by rewrite IHm.
Qed.

Lemma add_comodo_entry_rewritten (F : string → Attrs → Attrs) (ds0 ds' : Dataset)
    (w : list string) (e : string * (string * pyval)) :
  rewritten F ds0 ds' →
  rewritten (fun n a => if decide (n ∈ dim_names ds0)
                        then comodo_entry n (F n a) e else F n a)
            ds0 (add_comodo_entry (ds', w) e).1 ∧
  (add_comodo_entry (ds', w) e).2
  = (w ++ filter (fun d => d ∉ dim_names ds0) [e.2.1])%list.
Proof.
  intros Hrw. pose proof Hrw as (Hd & _).
  destruct e as [axis [dim shift]]. unfold add_comodo_entry, add_comodo_dim. cbn.
  assert (in_dims dim ds' = bool_decide (dim ∈ dim_names ds0)) as ->.
  { unfold in_dims, dim_names. by rewrite Hd. }
  destruct (decide (dim ∈ dim_names ds0)) as [Hin | Hin].
  - rewrite bool_decide_true by done. cbn. rewrite decide_False by tauto.
    split; [| by rewrite app_nil_r].
    destruct (py_truthy shift) eqn:Hsh.
    + eapply rewritten_ext; cycle 1; [apply rewritten_update, rewritten_update, Hrw |].
      intros n a. unfold comodo_entry. cbn. rewrite Hsh.
      destruct (decide (dim = n)) as [-> | Hdn]; [by rewrite decide_True | by case_decide].
    + eapply rewritten_ext; cycle 1; [apply rewritten_update, Hrw |].
      intros n a. unfold comodo_entry. cbn. rewrite Hsh.
      destruct (decide (dim = n)) as [-> | Hdn]; [by rewrite decide_True | by case_decide].
  - rewrite bool_decide_false by done. cbn. rewrite decide_True by done.
    split; [| done].
    eapply rewritten_ext; cycle 1; [exact Hrw |].
    intros n a. unfold comodo_entry. cbn.
    destruct (decide (n ∈ dim_names ds0)); [| done].
    rewrite decide_False; [done | by intros ->].
Qed.

Lemma add_comodo_entries_rewritten (es : list (string * (string * pyval))) :
  ∀ (F : string → Attrs → Attrs) (ds0 ds' : Dataset) (w : list string),
  rewritten F ds0 ds' →
  rewritten (fun n a => if decide (n ∈ dim_names ds0)
                        then foldl (comodo_entry n) (F n a) es else F n a)
            ds0 (foldl add_comodo_entry (ds', w) es).1 ∧
  (foldl add_comodo_entry (ds', w) es).2
  = (w ++ filter (fun d => d ∉ dim_names ds0) es.*2.*1)%list.
Proof.
  induction es as [| e es IH]; intros F ds0 ds' w Hrw; cbn [foldl].
  - split; [| by rewrite app_nil_r].
    eapply rewritten_ext; cycle 1; [exact Hrw |]. intros n a. by case_decide.
  - destruct (add_comodo_entry_rewritten F ds0 ds' w e Hrw) as [Hrw1 Hw1].
    destruct (add_comodo_entry (ds', w) e) as [ds1 w1] eqn:Hst. cbn in Hrw1, Hw1.
    destruct (IH _ ds0 ds1 w1 Hrw1) as [Hrw2 Hw2]. split.
    + eapply rewritten_ext; cycle 1; [exact Hrw2 |]. intros n a. cbn. by repeat case_decide.
    + rewrite Hw2, Hw1, <- app_assoc. f_equal. cbn [fmap list_fmap].
      rewrite filter_cons. by case_decide.
Qed.

Lemma comodo_entries_other_key (n k : string) (es : list (string * (string * pyval)))
    (a : Attrs) :
  k ≠ "axis" → k ≠ "c_grid_axis_shift" → foldl (comodo_entry n) a es !! k = a !! k.
Proof.
  intros Hk1 Hk2. revert a. induction es as [| e es IH]; intros a; cbn; [done |].
  rewrite IH. unfold comodo_entry. repeat case_match; by rewrite ?lookup_insert_ne.
Qed.

Lemma comodo_entries_not_named (n : string) (es : list (string * (string * pyval)))
    (a : Attrs) :
  n ∉ es.*2.*1 → foldl (comodo_entry n) a es = a.
Proof.
  revert a. induction es as [| e es IH]; intros a Hn; cbn; [done |].
  cbn in Hn. apply not_elem_of_cons in Hn as [Hne Hn].
  rewrite IH by done. unfold comodo_entry. by rewrite decide_False.
Qed.

Lemma comodo_entries_axis_named (n : string) (es : list (string * (string * pyval)))
    (a : Attrs) :
  n ∈ es.*2.*1 → is_Some (foldl (comodo_entry n) a es !! "axis").
Proof.
  revert a. induction es as [| e es IH] using rev_ind; intros a Hn; [by inversion Hn |].
  rewrite foldl_app. cbn. rewrite !fmap_app in Hn. cbn in Hn.
  unfold comodo_entry at 1. destruct (decide (e.2.1 = n)) as [He | He].
  - cbn. case_match; rewrite ?lookup_insert_ne by done; rewrite lookup_insert_eq; eauto.
  - apply IH. apply elem_of_app in Hn as [Hn | Hn]; [done |].
    by apply list_elem_of_singleton in Hn.
Qed.

(** The entry of a dimension named once in the spec decides its two
    comodo attributes. *)
Lemma comodo_entries_once (n axis : string) (shift : pyval)
    (l1 l2 : list (string * (string * pyval))) (a : Attrs) :
  n ∉ l1.*2.*1 → n ∉ l2.*2.*1 →
  foldl (comodo_entry n) a (l1 ++ (axis, (n, shift)) :: l2)
  = comodo_entry n a (axis, (n, shift)).
Proof.
  intros H1 H2. rewrite foldl_app. cbn [foldl].
  by rewrite (comodo_entries_not_named n l1), (comodo_entries_not_named n l2).
Qed.

Section CreateGridProperties.
Context {Grid Periodic FaceConnections : Type}.
Variable xgcm_Grid : Dataset → Periodic → option FaceConnections → result Grid.
Variable axes : Grid → list pyval.

Lemma create_grid_dataset_after (ds : Dataset) (coords : Coords) (p : Periodic)
    (fc : option FaceConnections) :
  dataset_after (_create_grid xgcm_Grid axes ds coords p fc)
  = (add_comodo (cleanup_comodo ds) coords).1.
Proof. unfold _create_grid. by destruct (add_comodo _ _). Qed.

Lemma create_grid_warnings (ds : Dataset) (coords : Coords) (p : Periodic)
    (fc : option FaceConnections) :
  warnings (_create_grid xgcm_Grid axes ds coords p fc)
  = let warn_dims := (add_comodo (cleanup_comodo ds) coords).2 in
    if negb (length warn_dims =? 0)%nat then [not_dimensions_warning warn_dims] else [].
Proof. unfold _create_grid. by destruct (add_comodo _ _). Qed.

Lemma create_grid_returned (ds : Dataset) (coords : Coords) (p : Periodic)
    (fc : option FaceConnections) :
  returned (_create_grid xgcm_Grid axes ds coords p fc)
  = (grid ← xgcm_Grid (add_comodo (cleanup_comodo ds) coords).1 p fc;
     if (length (axes grid) =? 0)%nat then Ret None else Ret (Some grid)).
Proof. unfold _create_grid. destruct (add_comodo _ _). by destruct fc. Qed.

(** The dataset a call leaves behind, variable by variable. *)
Lemma create_grid_rewritten (ds : Dataset) (coords : Coords) (p : Periodic)
    (fc : option FaceConnections) :
  rewritten (comodo_attrs (dim_names ds) (coords_entries coords)) ds
            (dataset_after (_create_grid xgcm_Grid axes ds coords p fc)).
Proof.
  rewrite create_grid_dataset_after, add_comodo_entries.
  eapply rewritten_ext; cycle 1;
    [apply add_comodo_entries_rewritten, cleanup_comodo_rewritten |].
  intros n a. unfold comodo_attrs. cbn. by repeat case_decide.
Qed.

Lemma create_grid_warn_dims (ds : Dataset) (coords : Coords) :
  (add_comodo (cleanup_comodo ds) coords).2
  = filter (fun d => d ∉ dim_names ds) (spec_dims coords).
Proof.
  rewrite add_comodo_entries.
  by destruct (add_comodo_entries_rewritten (coords_entries coords) _ ds _ []
                 (cleanup_comodo_rewritten ds)) as [_ ->].
Qed.

End CreateGridProperties.

Section CreateGridClaims.
Context {Grid Periodic FaceConnections : Type}.
Variable xgcm_Grid : Dataset → Periodic → option FaceConnections → result Grid.
Variable axes : Grid → list pyval.

(** C4, as the code has it: [_create_grid] works on the caller's dataset
    in place and returns the grid, not a dataset.  The call leaves the
    dimensions, the coordinate names and the variable names as they
    were, and each variable with its dimension names, data and encoding;
    attributes other than ['axis'] and ['c_grid_axis_shift'] are
    unchanged, a variable that is not a dimension keeps all of its
    attributes, and a dimension the spec does not name loses its
    ['axis'] and ['c_grid_axis_shift']. *)
Theorem create_grid_in_place (ds : Dataset) (coords : Coords) (p : Periodic)
    (fc : option FaceConnections) :
  let ds' := dataset_after (_create_grid xgcm_Grid axes ds coords p fc) in
  ds_dims ds' = ds_dims ds ∧ coord_names ds' = coord_names ds ∧
  (variables ds').*1 = (variables ds).*1 ∧
  ∀ n v, vars_lookup n (variables ds) = Some v →
    ∃ v', vars_lookup n (variables ds') = Some v' ∧
      dims v' = dims v ∧ data v' = data v ∧ encoding v' = encoding v ∧
      (∀ k, k ≠ "axis" → k ≠ "c_grid_axis_shift" → attrs v' !! k = attrs v !! k) ∧
      (n ∉ dim_names ds → attrs v' = attrs v) ∧
      (n ∈ dim_names ds → n ∉ spec_dims coords →
       attrs v' = delete "c_grid_axis_shift" (delete "axis" (attrs v))).
Proof.
  intros ds'. destruct (create_grid_rewritten xgcm_Grid axes ds coords p fc)
    as (Hd & Hc & Hn & Hl). fold ds' in Hd, Hc, Hn, Hl.
  repeat split; try done.
  intros n v Hv. rewrite Hl, Hv. eexists. split; [reflexivity |].
  cbn. repeat split.
  - intros k Hk1 Hk2. unfold comodo_attrs. case_decide; [| done].
    rewrite comodo_entries_other_key by done.
    by rewrite !lookup_delete_ne.
  - intros Hnot. unfold comodo_attrs. by rewrite decide_False.
  - intros Hin Hnot. unfold comodo_attrs. rewrite decide_True by done.
    by apply comodo_entries_not_named.
Qed.

(** C5, as the code has it: for a dimension of the dataset (with its
    coordinate variable) that the axis spec names once, under [axis] with
    [shift], the call leaves its ['axis'] attribute set to [axis], and its
    ['c_grid_axis_shift'] attribute set to [str(shift)] if [shift] is
    true in the sense of [if shift:], and absent otherwise. *)
Theorem create_grid_sets_comodo (ds : Dataset) (coords : Coords) (p : Periodic)
    (fc : option FaceConnections) (axis dim : string) (shift : pyval)
    (l1 l2 : list (string * (string * pyval))) :
  dim ∈ dim_names ds →
  is_Some (vars_lookup dim (variables ds)) →
  coords_entries coords = l1 ++ (axis, (dim, shift)) :: l2 →
  dim ∉ l1.*2.*1 → dim ∉ l2.*2.*1 →
  let ds' := dataset_after (_create_grid xgcm_Grid axes ds coords p fc) in
  attrs_of ds' dim !! "axis" = Some (VStr axis) ∧
  attrs_of ds' dim !! "c_grid_axis_shift"
  = (if py_truthy shift then Some (VStr (py_str shift)) else None).
Proof.
  intros Hin [v Hv] Hes H1 H2 ds'.
  destruct (create_grid_rewritten xgcm_Grid axes ds coords p fc) as (_ & _ & _ & Hl).
  fold ds' in Hl. unfold attrs_of. rewrite Hl, Hv. cbn.
  unfold comodo_attrs. rewrite decide_True by done.
  rewrite Hes, comodo_entries_once by done.
  unfold comodo_entry. cbn. rewrite decide_True by done.
  destruct (py_truthy shift); split;
    repeat first [ rewrite lookup_insert_eq | rewrite lookup_insert_ne by done
                 | rewrite lookup_delete_eq | rewrite lookup_delete_ne by done ]; done.
Qed.

(** C6: when every dimension name of the axis spec is a dimension of the
    dataset no warning is emitted; when one is not, exactly one warning
    is emitted: its message is the text
    ['{} are not dimensions and are not added to the grid object.']
    formatted with the list of the names of the spec that are not
    dimensions, all of them and only them, in the order of the spec.
    The annotation itself raises nothing: an exception of the call is
    one of [xgcm.Grid], raised on the annotated dataset after the
    warning. *)
Theorem create_grid_warns (ds : Dataset) (coords : Coords) (p : Periodic)
    (fc : option FaceConnections) :
  let o := _create_grid xgcm_Grid axes ds coords p fc in
  (Forall (fun d => d ∈ dim_names ds) (spec_dims coords) → warnings o = []) ∧
  (Exists (fun d => d ∉ dim_names ds) (spec_dims coords) →
   ∃ w, warnings o = [w] ∧
     w_format w = "{} are not dimensions and are not added to the grid object." ∧
     w_args w = filter (fun d => d ∉ dim_names ds) (spec_dims coords) ∧
     w_stacklevel w = 2 ∧
     w_args w ≠ [] ∧
     ∀ d, d ∈ w_args w ↔ d ∈ spec_dims coords ∧ d ∉ dim_names ds) ∧
  (∀ e, returned o = Raise e → xgcm_Grid (dataset_after o) p fc = Raise e).
Proof.
  intros o. unfold o. split; [| split]; cycle 2.
  { intros e. rewrite create_grid_returned, create_grid_dataset_after.
    destruct (xgcm_Grid _ p fc) as [g | e0]; unfold mbind, result_bind.
    - destruct (length (axes g) =? 0)%nat; discriminate.
    - by intros [= ->]. }
  all: rewrite create_grid_warnings, create_grid_warn_dims; cbn zeta.
  - intros Hall. replace (filter _ _) with (@nil string); [done |].
    symmetry. apply elem_of_nil_inv. intros d [Hd Hin]%list_elem_of_filter.
    rewrite Forall_forall in Hall. by apply Hd, Hall.
  - intros (d & Hin & Hd)%Exists_exists.
    assert (filter (fun d => d ∉ dim_names ds) (spec_dims coords) ≠ []) as Hne.
    { intros Hf. by eapply (filter_nil_not_elem_of _ _ d Hf). }
    exists (not_dimensions_warning
              (filter (fun d => d ∉ dim_names ds) (spec_dims coords))).
    split; [by destruct (filter _ _) |].
    cbn [not_dimensions_warning w_format w_args w_stacklevel].
    split; [done |]. split; [done |]. split; [done |]. split; [done |].
    intros d'. rewrite list_elem_of_filter. tauto.
Qed.

End CreateGridClaims.

Section GridBuilder.
Context {Grid Periodic FaceConnections : Type}.
Variable xgcm_Grid : Dataset → Periodic → option FaceConnections → result Grid.
Variable axes : Grid → list pyval.

(** What [_create_grid] relies on xgcm for: the axes of a grid are the
    values of the ['axis'] attributes of the dimensions of its dataset. *)
Hypothesis xgcm_axes_comodo :
  ∀ ds p fc g, xgcm_Grid ds p fc = Ret g →
    ∀ a, a ∈ axes g ↔ ∃ d, d ∈ dim_names ds ∧ attrs_of ds d !! "axis" = Some a.

Lemma create_grid_axis_attr_named (ds : Dataset) (coords : Coords) (p : Periodic)
    (fc : option FaceConnections) (d : string) :
  is_Some (attrs_of (dataset_after (_create_grid xgcm_Grid axes ds coords p fc)) d !! "axis") →
  d ∈ dim_names ds → d ∈ spec_dims coords ∧ is_Some (vars_lookup d (variables ds)).
Proof.
  intros Hsome Hin.
  destruct (create_grid_rewritten xgcm_Grid axes ds coords p fc) as (_ & _ & _ & Hl).
  unfold attrs_of in Hsome. rewrite Hl in Hsome.
  destruct (vars_lookup d (variables ds)) as [v |]; cbn in Hsome;
    [| by destruct Hsome].
  split; [| by eexists].
  unfold comodo_attrs in Hsome. rewrite decide_True in Hsome by done.
  destruct (decide (d ∈ spec_dims coords)) as [| Hnot]; [done |].
  rewrite comodo_entries_not_named in Hsome by done.
  rewrite lookup_delete_ne, lookup_delete_eq in Hsome by done.
  by destruct Hsome.
Qed.

Lemma create_grid_named_axis_attr (ds : Dataset) (coords : Coords) (p : Periodic)
    (fc : option FaceConnections) (d : string) :
  is_Some (vars_lookup d (variables ds)) → d ∈ dim_names ds → d ∈ spec_dims coords →
  is_Some (attrs_of (dataset_after (_create_grid xgcm_Grid axes ds coords p fc)) d !! "axis").
Proof.
  intros [v Hv] Hin Hspec.
  destruct (create_grid_rewritten xgcm_Grid axes ds coords p fc) as (_ & _ & _ & Hl).
  unfold attrs_of. rewrite Hl, Hv. cbn. unfold comodo_attrs.
  rewrite decide_True by done. by apply comodo_entries_axis_named.
Qed.

(** C7, amended: when xgcm builds a grid from the annotated dataset,
    [_create_grid] returns [None] exactly when no entry of the axis spec
    names a dimension of the dataset that has a coordinate variable: a
    dimension without one takes no attribute, so naming it resolves no
    axis.  [None] is returned exactly when the grid built has no axes,
    and a grid that is returned has at least one. *)
Theorem create_grid_none_iff (ds : Dataset) (coords : Coords) (p : Periodic)
    (fc : option FaceConnections) (g : Grid) :
  let o := _create_grid xgcm_Grid axes ds coords p fc in
  xgcm_Grid (dataset_after o) p fc = Ret g →
  (returned o = Ret None ↔
   ¬ ∃ axis dim shift,
       (axis, (dim, shift)) ∈ coords_entries coords ∧ dim ∈ dim_names ds ∧
       is_Some (vars_lookup dim (variables ds))) ∧
  (returned o = Ret None ↔ axes g = []) ∧
  (∀ g', returned o = Ret (Some g') → g' = g ∧ axes g' ≠ []).
Proof.
  intros o Hg.
  assert (returned o = if (length (axes g) =? 0)%nat then Ret None else Ret (Some g)) as Hret.
  { unfold o in *. rewrite create_grid_returned.
    rewrite create_grid_dataset_after in Hg. by rewrite Hg. }
  assert (returned o = Ret None ↔ axes g = []) as Hnone.
  { rewrite Hret. destruct (axes g); cbn; split; done. }
  split; [| split; [exact Hnone |]].
  - rewrite Hnone. split.
    + intros Hnil (axis & dim & shift & Hin & Hdim & Hco).
      assert (dim ∈ spec_dims coords) as Hspec.
      { unfold spec_dims. apply list_elem_of_fmap. exists (dim, shift). split; [done |].
        apply list_elem_of_fmap. by exists (axis, (dim, shift)). }
      apply (create_grid_named_axis_attr ds coords p fc dim Hco Hdim) in Hspec as [a Ha].
      assert (a ∈ axes g) as Hax.
      { apply (xgcm_axes_comodo _ _ _ _ Hg). exists dim. split; [| exact Ha].
        destruct (create_grid_rewritten xgcm_Grid axes ds coords p fc) as (Hd & _).
        unfold dim_names. fold o in Hd. by rewrite Hd. }
      rewrite Hnil in Hax. by apply elem_of_nil in Hax.
    + intros Hnone'. apply elem_of_nil_inv. intros a Ha.
      apply (xgcm_axes_comodo _ _ _ _ Hg) in Ha as (d & Hd & Ha).
      destruct (create_grid_rewritten xgcm_Grid axes ds coords p fc) as (Hdims & _).
      fold o in Hdims. unfold dim_names in Hd. rewrite Hdims in Hd.
      assert (d ∈ spec_dims coords ∧ is_Some (vars_lookup d (variables ds)))
        as [Hspec Hco].
      { apply (create_grid_axis_attr_named ds coords p fc d); [| done].
        fold o. by rewrite Ha. }
      apply list_elem_of_fmap in Hspec as ([dim shift] & -> & Hspec).
      apply list_elem_of_fmap in Hspec as ([axis e] & He & Hspec).
      cbn in He. subst e. apply Hnone'. by exists axis, dim, shift.
  - intros g'. rewrite Hret. destruct (axes g) eqn:Hax; cbn; [done |].
    intros [= <-]. by rewrite Hax.
Qed.

End GridBuilder.

Lemma comodo_Grid_axes :
  ∀ ds p fc g, comodo_Grid ds p fc = Ret g →
    ∀ a, a ∈ g ↔ ∃ d, d ∈ dim_names ds ∧ attrs_of ds d !! "axis" = Some a.
Proof.
  intros ds p fc g [= <-] a. unfold comodo_axes.
  by rewrite elem_of_remove_dups, list_elem_of_omap.
Qed.

(** ** [_create_grid] on the sample data *)

(** C4 as stated fails: called without axis spec on a dataset whose
    coordinate [X] carries ['axis'] and ['c_grid_axis_shift'], the call
    leaves the caller's coordinate without them. *)
Lemma create_grid_mutates_caller :
  let ds' := dataset_after (_create_grid comodo_Grid id sample_dataset None [] None) in
  attrs_of sample_dataset "X" !! "axis" = Some (VStr "Q") ∧
  attrs_of ds' "X" !! "axis" = None ∧
  attrs_of ds' "X" ≠ attrs_of sample_dataset "X" ∧
  ds' ≠ sample_dataset.
Proof.
  assert (attrs_of (dataset_after (_create_grid comodo_Grid id sample_dataset None [] None))
            "X" !! "axis" = None) as Hafter by (vm_compute; reflexivity).
  assert (attrs_of sample_dataset "X" !! "axis" = Some (VStr "Q")) as Hbefore
    by (vm_compute; reflexivity).
  cbn zeta. split; [exact Hbefore |]. split; [exact Hafter |].
  split; intros Heq; rewrite Heq, Hbefore in Hafter; discriminate.
Qed.

Lemma create_grid_in_place_witness :
  ∃ v', vars_lookup "X" (variables
          (dataset_after (_create_grid comodo_Grid id sample_dataset None [] None)))
        = Some v' ∧
        attrs v' = {[ "units" := VStr "m" ]}.
Proof.
  destruct (create_grid_in_place comodo_Grid id sample_dataset None [] None)
    as (_ & _ & _ & H).
  destruct (H "X" _ eq_refl) as (v' & Hv & _ & _ & _ & _ & _ & Hdel).
  exists v'. split; [exact Hv |].
  rewrite Hdel; [vm_compute; reflexivity | compute_done | compute_done].
Defined.

(** C5 as stated fails at a shift of 0: it is not [None], yet no
    ['c_grid_axis_shift'] attribute is written (while ['axis'] is). *)
Lemma create_grid_zero_shift :
  let ds' := dataset_after
               (_create_grid comodo_Grid id sample_dataset zero_shift_coords [] None) in
  "Xp1" ∈ dim_names sample_dataset ∧ VInt 0 ≠ VNone ∧
  attrs_of ds' "Xp1" !! "axis" = Some (VStr "X") ∧
  attrs_of ds' "Xp1" !! "c_grid_axis_shift" = None ∧
  attrs_of ds' "Xp1" !! "c_grid_axis_shift" ≠ Some (VStr (py_str (VInt 0))).
Proof.
  cbn zeta. split; [compute_done |]. split; [done |].
  assert (attrs_of (dataset_after
            (_create_grid comodo_Grid id sample_dataset zero_shift_coords [] None))
            "Xp1" !! "c_grid_axis_shift" = None) as Hshift by (vm_compute; reflexivity).
  split; [vm_compute; reflexivity |]. split; [exact Hshift |].
  rewrite Hshift. discriminate.
Qed.

Lemma create_grid_sets_comodo_witness :
  let ds' := dataset_after
               (_create_grid comodo_Grid id sample_dataset sample_coords [] None) in
  attrs_of ds' "Xp1" !! "axis" = Some (VStr "X") ∧
  attrs_of ds' "Xp1" !! "c_grid_axis_shift" = Some (VStr "0.5").
Proof.
  apply (create_grid_sets_comodo comodo_Grid id sample_dataset sample_coords [] None
           "X" "Xp1" (VFloat true "0.5")
           [("X", ("X", VNone))] [("X", ("Xp2", VNone)); ("Y", ("Y", VNone))]).
  - compute_done.
  - by eexists.
  - reflexivity.
  - compute_done.
  - compute_done.
Defined.

Lemma create_grid_warns_witness :
  warnings (_create_grid comodo_Grid id sample_dataset None [] None) = [] ∧
  ∃ w,
    warnings (_create_grid comodo_Grid id sample_dataset sample_coords [] None) = [w] ∧
    w_format w = "{} are not dimensions and are not added to the grid object." ∧
    w_args w = ["Xp2"; "Y"].
Proof.
  split.
  - apply (create_grid_warns comodo_Grid id sample_dataset None [] None).
    apply Forall_nil_2.
  - destruct (create_grid_warns comodo_Grid id sample_dataset sample_coords [] None)
      as (_ & H & _).
    destruct H as (w & Hw & Hformat & Hargs & _).
    + apply Exists_exists. exists "Y". split; compute_done.
    + exists w. split; [exact Hw |]. split; [exact Hformat |].
      rewrite Hargs. reflexivity.
Defined.

(** C7 as stated fails on a dimension without coordinate variable: the
    spec names [X], which is a dimension of the dataset, and no name of
    the spec is missing from it (no warning), yet no ['axis'] attribute
    is kept and [None] is returned. *)
Lemma create_grid_none_despite_dimension :
  let o := _create_grid comodo_Grid id uncoordinated_dataset uncoordinated_coords
             [] None in
  (∃ axis dim shift,
     (axis, (dim, shift)) ∈ coords_entries uncoordinated_coords ∧
     dim ∈ dim_names uncoordinated_dataset) ∧
  warnings o = [] ∧
  returned o = Ret None.
Proof.
  cbn zeta. split; [| split; vm_compute; reflexivity].
  exists "X", "X", VNone. split; compute_done.
Qed.

Lemma create_grid_none_iff_witness :
  returned (_create_grid comodo_Grid id sample_dataset None [] None) = Ret None ∧
  returned (_create_grid comodo_Grid id sample_dataset sample_coords [] None) ≠ Ret None.
Proof.
  split.
  - destruct (create_grid_none_iff comodo_Grid id comodo_Grid_axes sample_dataset None
                [] None _ eq_refl) as [H _].
    apply H.
    intros (axis & dim & shift & Hin & _). by apply elem_of_nil in Hin.
  - destruct (create_grid_none_iff comodo_Grid id comodo_Grid_axes sample_dataset
                sample_coords [] None _ eq_refl) as [H _].
    intros Hnone. apply H in Hnone.
    apply Hnone. exists "X", "X", VNone.
    split; [compute_done |]. split; [compute_done | by eexists].
Defined.

(** * Properties of the POP functions *)

(** C8: the module binds [numpy], not [np], so the first statement of
    [_add_pop_dims_to_dataset] after the copy raises [NameError] on every
    dataset: no axis is added and no dataset is returned. *)
Theorem add_pop_dims_name_error (ds : Dataset) :
  _add_pop_dims_to_dataset module_globals ds = Raise (NameError "np").
Proof. reflexivity. Qed.

(** C2: [_relabel_pop_dims] calls [_add_pop_dims_to_dataset] before its
    loop over the variables, so it raises [NameError] on every dataset
    and the dimension tuple of no variable is replaced. *)
Theorem relabel_pop_dims_name_error (ds : Dataset) :
  _relabel_pop_dims module_globals ds = Raise (NameError "np") ∧
  ¬ ∃ ds_new, _relabel_pop_dims module_globals ds = Ret ds_new.
Proof.
  assert (_relabel_pop_dims module_globals ds = Raise (NameError "np")) as H
    by reflexivity.
  split; [exact H |]. intros [ds_new Hret]. rewrite H in Hret. discriminate.
Qed.

Lemma relabel_pop_dims_name_error_witness :
  _relabel_pop_dims module_globals pop_dataset = Raise (NameError "np").
Proof. apply (relabel_pop_dims_name_error pop_dataset). Defined.

(** Tagging leaves a dataset without registered variable as it is. *)
Lemma label_coord_grid_locs_unregistered (ds : Dataset) :
  (∀ n, n ∈ (variables ds).*1 → grid_locs_lookup n grid_locs = None) →
  _label_coord_grid_locs ds = ds.
Proof.
  unfold _label_coord_grid_locs. generalize ((variables ds).*1) as names.
  induction names as [| n names IH]; intros Hnone; cbn [foldl]; [done |].
  rewrite (Hnone n) by apply list_elem_of_here.
  apply IH. intros m Hm. apply Hnone. by apply list_elem_of_further.
Qed.

(** C9: on a dataset none of whose variables is in the registry the
    tagging step changes nothing, and [_relabel_pop_dims] then raises
    [NameError] like on any other: it returns no dataset in which the
    dimension tuples could have been kept. *)
Theorem relabel_unregistered_name_error (ds : Dataset) :
  (∀ n, n ∈ (variables ds).*1 → grid_locs_lookup n grid_locs = None) →
  _label_coord_grid_locs ds = ds ∧
  _relabel_pop_dims module_globals ds = Raise (NameError "np").
Proof.
  intros Hnone. split; [by apply label_coord_grid_locs_unregistered | reflexivity].
Qed.

Lemma relabel_unregistered_name_error_witness :
  _label_coord_grid_locs unregistered_dataset = unregistered_dataset ∧
  _relabel_pop_dims module_globals unregistered_dataset = Raise (NameError "np").
Proof.
  apply (relabel_unregistered_name_error unregistered_dataset).
  intros n Hn. cbn in Hn.
  repeat (apply elem_of_cons in Hn as [-> | Hn]; [reflexivity |]).
  by apply elem_of_nil in Hn.
Defined.

(** ** With [np] bound *)

(** What the loop body of [_relabel_pop_dims] does to a tagged variable
    when the decoder and [_xr.Variable] return: the variable with the
    decoded tuple as dimension names, after ['Nt'] if that was the first
    dimension, and with the data, attributes and encoding it had, is
    assigned to the dataset; the assignment is refused when the sizes of
    a dimension then disagree. *)
Lemma relabel_variable_tagged (globals : list (string * py_module)) (ds_new : Dataset)
    (vname : string) (da : xr_Variable) (grid_loc : pyval) (t : list string)
    (d0 : string) (rest : list string) :
  namespace_lookup "_xr" globals = Some xarray →
  vars_lookup vname (variables ds_new) = Some da →
  attrs da !! "grid_loc" = Some grid_loc →
  _dims_from_grid_loc grid_loc = Ret (Some t) →
  dims da = d0 :: rest →
  let new_dims := if String.eqb d0 "Nt" then "Nt" :: t else t in
  length new_dims = length (shape (data da)) →
  relabel_variable globals ds_new vname
  = ds_setitem vname (mkVariable new_dims (data da) (attrs da) (encoding da)) ds_new.
Proof.
  intros Hxr Hv Hgl Hdec Hdims new_dims Hrank.
  unfold relabel_variable, global. rewrite Hv, Hgl, Hdec, Hdims, Hxr. cbn.
  subst new_dims. destruct (String.eqb d0 "Nt"); cbn;
    unfold Variable_new; cbn; apply Nat.eqb_eq in Hrank; cbn in Hrank; by rewrite Hrank.
Qed.

(** With [np] bound the function still fails on POP output: the
    attributes are set on ['Z_t'], ['Z_w'], ... while the coordinates are
    ['z_t'], ['z_w'], ... *)
Lemma add_pop_dims_np_bound_key_error :
  _add_pop_dims_to_dataset np_bound pop_dataset = Raise KeyError.
Proof. vm_compute. reflexivity. Qed.

(** And where those names exist, three axes are added, not four: ['XT']
    is assigned twice, the second time as the Y axis, and there is no
    ['YT']. *)
Lemma add_pop_dims_np_bound_axes :
  ∃ ds_new, _add_pop_dims_to_dataset np_bound pop_dataset_capitalised = Ret ds_new ∧
    (variables ds_new).*1 = ((variables pop_dataset_capitalised).*1 ++ ["XU"; "YU"; "XT"]) ∧
    data <$> vars_lookup "XU" (variables ds_new) = Some (ArangePlus 4 (VInt 1)) ∧
    data <$> vars_lookup "YU" (variables ds_new) = Some (ArangePlus 3 (VInt 1)) ∧
    data <$> vars_lookup "XT" (variables ds_new) = Some (ArangePlus 3 (VFloat true "0.5")) ∧
    attrs_of ds_new "XT" !! "axis" = Some (VStr "Y") ∧
    vars_lookup "YT" (variables ds_new) = None.
Proof. eexists. split; [vm_compute; reflexivity |]. repeat split. Qed.

Lemma unnamed_lookup (name : string) (vs : list (string * xr_Variable)) :
  unnamed name vs → vars_lookup name vs = None.
Proof.
  induction 1 as [| [n v] vs [Hn _] _ IH]; cbn; [done |].
  by rewrite decide_False.
Qed.

Lemma add_dimension_names (scalar_vars : list string) (l : list (string * nat))
    (sizes sizes' : list (string * nat)) (n : string) :
  for_each (add_dimension scalar_vars) sizes l = Ret sizes' →
  n ∈ sizes'.*1 → n ∈ sizes.*1 ∨ n ∈ l.*1.
Proof.
  revert sizes. induction l as [| e l IH]; intros sizes; cbn [for_each].
  - intros [= <-]. by left.
  - destruct (add_dimension scalar_vars sizes e) as [sizes1 |] eqn:Hadd; cbn; [| done].
    intros Hrest Hn. destruct (IH _ Hrest Hn) as [Hin | Hin].
    + unfold add_dimension in Hadd. case_bool_decide; [done |].
      destruct (list_find _ sizes) as [[? [? size]] |].
      * destruct (size =? e.2)%nat; [| done]. injection Hadd as <-. by left.
      * injection Hadd as <-. rewrite fmap_app, elem_of_app in Hin.
        destruct Hin as [Hin | Hin]; [by left |]. right.
        apply list_elem_of_singleton in Hin as ->. apply list_elem_of_here.
    + right. cbn. by apply list_elem_of_further.
Qed.

Lemma unnamed_dimensions (name : string) (vs : list (string * xr_Variable))
    (sizes : list (string * nat)) :
  unnamed name vs → calculate_dimensions vs = Ret sizes → name ∉ sizes.*1.
Proof.
  unfold calculate_dimensions. generalize ((filter (fun e => dims e.2 = []) vs).*1).
  intros scalar_vars Hun.
  assert (name ∉ (@nil (string * nat)).*1) as Hacc by apply not_elem_of_nil.
  revert Hacc. generalize (@nil (string * nat)) as acc.
  induction Hun as [| [n v] vs [_ Hd] _ IH]; intros acc Hacc; cbn [for_each].
  - by intros [= <-].
  - destruct (for_each (add_dimension scalar_vars) acc _) as [acc1 |] eqn:Hv;
      cbn; [| done].
    apply IH. intros Hin.
    destruct (add_dimension_names _ _ _ _ _ Hv Hin) as [H | H]; [done |].
    apply Hd. apply list_elem_of_fmap in H as ([d k] & -> & He).
    by apply elem_of_zip_l in He.
Qed.

Lemma unnamed_vars_set (name n : string) (v : xr_Variable)
    (vs : list (string * xr_Variable)) :
  n ≠ name → name ∉ dims v → unnamed name vs → unnamed name (vars_set n v vs).
Proof.
  intros Hn Hv. induction 1 as [| [m w] vs Hm Hvs IH]; cbn.
  - by repeat constructor.
  - case_decide as Hmn.
    + subst m. by constructor.
    + by constructor.
Qed.

Lemma assign_axis_unnamed (globals : list (string * py_module)) (ds ds_new ds' : Dataset)
    (name n len_of : string) (off : pyval) (a : Attrs) :
  n ≠ name →
  assign_axis globals ds n len_of off a ds_new = Ret ds' →
  unnamed name (variables ds_new) →
  unnamed name (variables ds') ∧ calculate_dimensions (variables ds') = Ret (ds_dims ds').
Proof.
  intros Hn Hret Hun. unfold assign_axis in Hret.
  destruct (global globals "_xr"); [| done]. cbn in Hret.
  destruct (global globals "np") as [np |]; [| done]. cbn in Hret.
  destruct (len_getattr ds len_of) as [k |]; [| done]. cbn in Hret.
  destruct (arange_plus np k off) as [values |] eqn:Hval; [| done]. cbn in Hret.
  destruct (length (shape values)) as [| [| ?]]; [done | | done].
  cbn in Hret. unfold ds_setitem in Hret.
  destruct (calculate_dimensions _) as [sizes |] eqn:Hsizes; cbn in Hret; [| done].
  injection Hret as <-. cbn. split; [| done].
  apply unnamed_vars_set; [done | | done]. cbn.
  intros Hin. apply list_elem_of_singleton in Hin. by subst.
Qed.

Lemma getitem_attrs_update_missing (name : string) (new : Attrs) (ds : Dataset) :
  vars_lookup name (variables ds) = None → name ∉ (ds_dims ds).*1 →
  getitem_attrs_update name new ds = Raise KeyError.
Proof.
  intros Hv Hd. unfold getitem_attrs_update, in_dims, dim_names. rewrite Hv.
  rewrite (bool_decide_false (is_Some None)) by (by intros [? ?]).
  by rewrite bool_decide_false.
Qed.

Lemma raises_bind {A B : Type} (r : result A) (k : A → result B) :
  (∀ a, r = Ret a → raises (k a)) → raises (r ≫= k).
Proof. destruct r as [a | e]; cbn; [eauto | by exists e]. Qed.

(** Binding [np] does not make the function work on POP output: on a
    dataset in which nothing is called ['Z_t'] every run ends in an
    exception, at the latest in the [KeyError] of [ds_new['Z_t']]. *)
Lemma add_pop_dims_np_bound_raises (ds : Dataset) :
  unnamed "Z_t" (variables ds) → raises (_add_pop_dims_to_dataset np_bound ds).
Proof.
  intros Hun. unfold _add_pop_dims_to_dataset.
  apply raises_bind. intros ds1 H1.
  assert (unnamed "Z_t" (variables ds1) ∧
          calculate_dimensions (variables ds1) = Ret (ds_dims ds1)) as [Hun1 _]
    by (eapply assign_axis_unnamed; [| exact H1 | exact Hun]; done).
  apply raises_bind. intros ds2 H2.
  assert (unnamed "Z_t" (variables ds2) ∧
          calculate_dimensions (variables ds2) = Ret (ds_dims ds2)) as [Hun2 _]
    by (eapply assign_axis_unnamed; [| exact H2 | exact Hun1]; done).
  apply raises_bind. intros ds3 H3.
  assert (unnamed "Z_t" (variables ds3) ∧
          calculate_dimensions (variables ds3) = Ret (ds_dims ds3)) as [Hun3 _]
    by (eapply assign_axis_unnamed; [| exact H3 | exact Hun2]; done).
  apply raises_bind. intros ds4 H4.
  assert (unnamed "Z_t" (variables ds4) ∧
          calculate_dimensions (variables ds4) = Ret (ds_dims ds4)) as [Hun4 Hd4]
    by (eapply assign_axis_unnamed; [| exact H4 | exact Hun3]; done).
  apply raises_bind. intros ds5 H5.
  unfold set_coords in H5. case_bool_decide; [| done]. injection H5 as <-.
  rewrite getitem_attrs_update_missing; [by exists KeyError | |]; cbn.
  - by apply unnamed_lookup.
  - by eapply unnamed_dimensions.
Qed.

Lemma unnamed_vars_alter (name n : string) (f : Attrs → Attrs)
    (vs : list (string * xr_Variable)) :
  unnamed name vs → unnamed name (vars_alter (with_attrs f) n vs).
Proof.
  induction 1 as [| [m w] vs Hm Hvs IH]; cbn; [constructor |].
  case_decide; by constructor.
Qed.

Lemma label_coord_grid_locs_unnamed (name : string) (ds : Dataset) :
  unnamed name (variables ds) → unnamed name (variables (_label_coord_grid_locs ds)).
Proof.
  unfold _label_coord_grid_locs. generalize ((variables ds).*1) as names.
  intros names. revert ds. induction names as [| n names IH]; intros ds Hun; cbn [foldl];
    [done |].
  apply IH. case_match; [| done]. by apply unnamed_vars_alter.
Qed.

(** So [_relabel_pop_dims] raises on such a dataset also with [np] bound. *)
Lemma relabel_pop_dims_np_bound_raises (ds : Dataset) :
  unnamed "Z_t" (variables ds) → raises (_relabel_pop_dims np_bound ds).
Proof.
  intros Hun. unfold _relabel_pop_dims.
  destruct (add_pop_dims_np_bound_raises _ (label_coord_grid_locs_unnamed _ _ Hun))
    as [e ->].
  by exists e.
Qed.

Example relabel_pop_dims_np_bound_pop_dataset :
  _relabel_pop_dims np_bound pop_dataset = Raise KeyError.
Proof. vm_compute. reflexivity. Qed.

Example relabel_pop_dims_np_bound_unregistered :
  _relabel_pop_dims np_bound unregistered_dataset = Raise KeyError.
Proof. vm_compute. reflexivity. Qed.

(** * Further properties of the decoder *)

Lemma int_of_char_digit (a : Z) : 0 ≤ a ≤ 9 → int_of_char (digit_char a) = Ret a.
Proof.
  intros Ha.
  assert (a = 0 ∨ a = 1 ∨ a = 2 ∨ a = 3 ∨ a = 4 ∨ a = 5 ∨ a = 6 ∨ a = 7 ∨ a = 8 ∨ a = 9)
    as Hcases by lia.
  destruct Hcases as [-> | [-> | [-> | [-> | [-> | [-> | [-> | [-> | [-> | ->]]]]]]]]];
    reflexivity.
Qed.

Lemma int_of_char_inv (c : ascii) (n : Z) :
  int_of_char c = Ret n → 0 ≤ n ≤ 9 ∧ c = digit_char n ∧ is_digit c = true.
Proof.
  destruct c as [[] [] [] [] [] [] [] []]; vm_compute; intros H;
    first [ discriminate H | injection H as <-; repeat split; congruence ].
Qed.

Lemma int_of_char_not_digit (c : ascii) :
  is_digit c = false → int_of_char c = Raise ValueError.
Proof. unfold int_of_char, is_digit. by intros ->. Qed.

Lemma is_digit_int_of_char (c : ascii) :
  is_digit c = true → ∃ n, int_of_char c = Ret n.
Proof. unfold int_of_char, is_digit. intros ->. eauto. Qed.

Lemma dict_getitem_table (t : list (Z * string)) (k : Z) :
  dict_getitem t k
  = match table_lookup t k with Some name => Ret name | None => Raise KeyError end.
Proof.
  induction t as [| [k' name] t IH]; cbn; [done |]. by destruct (k' =? k).
Qed.

(** The decoder on a string that starts with four digits. *)
Lemma dims_from_grid_loc_digits (a b c d : Z) (rest : string) :
  0 ≤ a ≤ 9 → 0 ≤ b ≤ 9 → 0 ≤ c ≤ 9 → 0 ≤ d ≤ 9 →
  _dims_from_grid_loc (VStr (placement_code a b c d ++ rest)%string)
  = match table_lookup horizontal_table b, table_lookup horizontal_table c,
          table_lookup vertical_table d with
    | Some X, Some Y, Some Zn =>
        if a =? 3 then
          if String.eqb Zn "surface" then Ret (Some [Y; X]) else Ret (Some [Zn; Y; X])
        else if a =? 2 then Ret (Some [Zn; Y; X])
        else Ret None
    | _, _, _ => Raise KeyError
    end.
Proof.
  intros Ha Hb Hc Hd.
  change (placement_code a b c d ++ rest)%string
    with (String (digit_char a) (String (digit_char b) (String (digit_char c)
           (String (digit_char d) rest)))).
  unfold _dims_from_grid_loc, py_str, str_index.
  cbn [String.get mbind result_bind].
  rewrite !int_of_char_digit by done. cbn [mbind result_bind].
  change [(1, "XT"); (2, "XU")] with horizontal_table.
  change [(0, "surface"); (1, "z_t"); (2, "z_w")] with vertical_table.
  rewrite !dict_getitem_table.
  destruct (table_lookup horizontal_table b); [| done].
  destruct (table_lookup horizontal_table c); [| done].
  by destruct (table_lookup vertical_table d).
Qed.

(** When the decoder gets past its four [int()] calls, the string starts
    with four digits. *)
Lemma dims_from_grid_loc_four_digits (s : string) (r : option (list string)) :
  _dims_from_grid_loc (VStr s) = Ret r ∨ _dims_from_grid_loc (VStr s) = Raise KeyError →
  ∃ a b c d rest, s = (placement_code a b c d ++ rest)%string ∧
    0 ≤ a ≤ 9 ∧ 0 ≤ b ≤ 9 ∧ 0 ≤ c ≤ 9 ∧ 0 ≤ d ≤ 9.
Proof.
  unfold _dims_from_grid_loc, py_str, str_index.
  destruct s as [| c0 [| c1 [| c2 [| c3 rest]]]]; cbn [String.get mbind result_bind];
    try (by intros [? | ?]);
    destruct (int_of_char_cases c0) as [[a H0] | ->]; rewrite ?H0;
    cbn [mbind result_bind]; try (by intros [? | ?]);
    destruct (int_of_char_cases c1) as [[b H1] | ->]; rewrite ?H1;
    cbn [mbind result_bind]; try (by intros [? | ?]);
    destruct (int_of_char_cases c2) as [[c H2] | ->]; rewrite ?H2;
    cbn [mbind result_bind]; try (by intros [? | ?]);
    destruct (int_of_char_cases c3) as [[d H3] | ->]; rewrite ?H3;
    cbn [mbind result_bind]; try (by intros [? | ?]).
  intros _.
  apply int_of_char_inv in H0 as (? & -> & _), H1 as (? & -> & _),
    H2 as (? & -> & _), H3 as (? & -> & _).
  by exists a, b, c, d, rest.
Qed.

Lemma int_of_char_is_digit (c : ascii) :
  int_of_char c
  = if is_digit c then Ret (Z.of_nat (nat_of_ascii c) - 48) else Raise ValueError.
Proof. reflexivity. Qed.

(** The four [int(grid_loc[i])] in order: the string ends before four
    digits were read, or a character that is no digit is met, or the
    string starts with four digits. *)
Lemma dims_from_grid_loc_scan (s : string) :
  ((String.length s < 4)%nat ∧
   (∀ i c, String.get i s = Some c → is_digit c = true) ∧
   _dims_from_grid_loc (VStr s) = Raise IndexError) ∨
  ((∃ i c, (i < 4)%nat ∧ String.get i s = Some c ∧ is_digit c = false) ∧
   _dims_from_grid_loc (VStr s) = Raise ValueError) ∨
  (∃ a b c d rest, s = (placement_code a b c d ++ rest)%string ∧
     0 ≤ a ≤ 9 ∧ 0 ≤ b ≤ 9 ∧ 0 ≤ c ≤ 9 ∧ 0 ≤ d ≤ 9).
Proof.
  unfold _dims_from_grid_loc, py_str, str_index.
  destruct s as [| c0 s]; cbn [String.get mbind result_bind].
  { left. repeat split; [cbn; lia | by intros [| i] c]. }
  rewrite (int_of_char_is_digit c0). destruct (is_digit c0) eqn:H0; cbn [mbind result_bind];
    [| right; left; split; [exists 0%nat, c0; repeat split; [lia | done] | done]].
  destruct s as [| c1 s]; cbn [String.get mbind result_bind].
  { left. repeat split; [cbn; lia |].
    intros [| [| i]] c; cbn; intros [= <-] || intros [=]; done. }
  rewrite (int_of_char_is_digit c1). destruct (is_digit c1) eqn:H1; cbn [mbind result_bind];
    [| right; left; split; [exists 1%nat, c1; repeat split; [lia | done] | done]].
  destruct s as [| c2 s]; cbn [String.get mbind result_bind].
  { left. repeat split; [cbn; lia |].
    intros [| [| [| i]]] c; cbn; intros [= <-] || intros [=]; done. }
  rewrite (int_of_char_is_digit c2). destruct (is_digit c2) eqn:H2; cbn [mbind result_bind];
    [| right; left; split; [exists 2%nat, c2; repeat split; [lia | done] | done]].
  destruct s as [| c3 s]; cbn [String.get mbind result_bind].
  { left. repeat split; [cbn; lia |].
    intros [| [| [| [| i]]]] c; cbn; intros [= <-] || intros [=]; done. }
  rewrite (int_of_char_is_digit c3). destruct (is_digit c3) eqn:H3; cbn [mbind result_bind];
    [| right; left; split; [exists 3%nat, c3; repeat split; [lia | done] | done]].
  right. right.
  destruct (is_digit_int_of_char c0 H0) as [a (? & -> & _)%int_of_char_inv].
  destruct (is_digit_int_of_char c1 H1) as [b (? & -> & _)%int_of_char_inv].
  destruct (is_digit_int_of_char c2 H2) as [c (? & -> & _)%int_of_char_inv].
  destruct (is_digit_int_of_char c3 H3) as [d (? & -> & _)%int_of_char_inv].
  by exists a, b, c, d, s.
Qed.

(** On four leading digits the decoder raises nothing but [KeyError]. *)
Lemma dims_from_grid_loc_digits_outcome (a b c d : Z) (rest : string) :
  0 ≤ a ≤ 9 → 0 ≤ b ≤ 9 → 0 ≤ c ≤ 9 → 0 ≤ d ≤ 9 →
  _dims_from_grid_loc (VStr (placement_code a b c d ++ rest)%string) = Raise KeyError ∨
  ∃ r, _dims_from_grid_loc (VStr (placement_code a b c d ++ rest)%string) = Ret r.
Proof.
  intros Ha Hb Hc Hd. rewrite dims_from_grid_loc_digits by done.
  repeat case_match; eauto.
Qed.

Lemma horizontal_table_some (k : Z) :
  is_Some (table_lookup horizontal_table k) ↔ k = 1 ∨ k = 2.
Proof.
  split.
  - intros [name H]. apply horizontal_table_inv in H. tauto.
  - intros [-> | ->]; by eexists.
Qed.

Lemma vertical_table_some (k : Z) :
  is_Some (table_lookup vertical_table k) ↔ k = 0 ∨ k = 1 ∨ k = 2.
Proof.
  split.
  - intros [name H]. apply vertical_table_inv in H. tauto.
  - intros [-> | [-> | ->]]; by eexists.
Qed.

(** The outcomes without exception, by the entries of the two tables. *)
Lemma dims_from_grid_loc_returns_tables (v : pyval) :
  ((∃ t, _dims_from_grid_loc v = Ret (Some t)) ↔
   ∃ a b c d rest, py_str v = (placement_code a b c d ++ rest)%string ∧
     (a = 2 ∨ a = 3) ∧
     is_Some (table_lookup horizontal_table b) ∧
     is_Some (table_lookup horizontal_table c) ∧
     is_Some (table_lookup vertical_table d)) ∧
  (_dims_from_grid_loc v = Ret None ↔
   ∃ a b c d rest, py_str v = (placement_code a b c d ++ rest)%string ∧
     0 ≤ a ≤ 9 ∧ a ≠ 2 ∧ a ≠ 3 ∧
     is_Some (table_lookup horizontal_table b) ∧
     is_Some (table_lookup horizontal_table c) ∧
     is_Some (table_lookup vertical_table d)).
Proof.
  rewrite (dims_from_grid_loc_str v). generalize (py_str v) as s. intros s.
  split; split.
  - intros [t Ht].
    destruct (dims_from_grid_loc_four_digits s (Some t) (or_introl Ht))
      as (a & b & c & d & rest & -> & Ha & Hb & Hc & Hd).
    rewrite dims_from_grid_loc_digits in Ht by done.
    exists a, b, c, d, rest. split; [done |].
    destruct (table_lookup horizontal_table b); [| done].
    destruct (table_lookup horizontal_table c); [| done].
    destruct (table_lookup vertical_table d); [| done].
    repeat split; eauto.
    destruct (a =? 3) eqn:E3; [apply Z.eqb_eq in E3; auto |].
    destruct (a =? 2) eqn:E2; [apply Z.eqb_eq in E2; auto | done].
  - intros (a & b & c & d & rest & -> & Ha & [X HX] & [Y HY] & [Zn HZ]).
    assert (0 ≤ b ≤ 9) by (apply horizontal_table_inv in HX; lia).
    assert (0 ≤ c ≤ 9) by (apply horizontal_table_inv in HY; lia).
    assert (0 ≤ d ≤ 9) by (apply vertical_table_inv in HZ; lia).
    rewrite dims_from_grid_loc_digits by lia. rewrite HX, HY, HZ.
    destruct Ha as [-> | ->]; cbn; [eauto |]. case_match; eauto.
  - intros Hnone.
    destruct (dims_from_grid_loc_four_digits s None (or_introl Hnone))
      as (a & b & c & d & rest & -> & Ha & Hb & Hc & Hd).
    rewrite dims_from_grid_loc_digits in Hnone by done.
    exists a, b, c, d, rest. split; [done |].
    destruct (table_lookup horizontal_table b); [| done].
    destruct (table_lookup horizontal_table c); [| done].
    destruct (table_lookup vertical_table d); [| done].
    destruct (a =? 3) eqn:E3; [by case_match |].
    destruct (a =? 2) eqn:E2; [done |].
    apply Z.eqb_neq in E3, E2. repeat split; eauto; lia.
  - intros (a & b & c & d & rest & -> & Ha & H2 & H3 & [X HX] & [Y HY] & [Zn HZ]).
    assert (0 ≤ b ≤ 9) by (apply horizontal_table_inv in HX; lia).
    assert (0 ≤ c ≤ 9) by (apply horizontal_table_inv in HY; lia).
    assert (0 ≤ d ≤ 9) by (apply vertical_table_inv in HZ; lia).
    rewrite dims_from_grid_loc_digits by lia. rewrite HX, HY, HZ.
    apply Z.eqb_neq in H2, H3. by rewrite H2, H3.
Qed.

(** X1: the decoder returns a tuple exactly when the string form of its
    argument starts with four digits [abcd] with [a] 2 or 3, [b] and [c]
    1 or 2, and [d] 0, 1 or 2; it returns [None] exactly when [b], [c]
    and [d] are such and [a] is any other digit.  What follows the
    fourth character plays no part. *)
Theorem dims_from_grid_loc_returns_iff (v : pyval) :
  ((∃ t, _dims_from_grid_loc v = Ret (Some t)) ↔
   ∃ a b c d rest, py_str v = (placement_code a b c d ++ rest)%string ∧
     (a = 2 ∨ a = 3) ∧ (b = 1 ∨ b = 2) ∧ (c = 1 ∨ c = 2) ∧
     (d = 0 ∨ d = 1 ∨ d = 2)) ∧
  (_dims_from_grid_loc v = Ret None ↔
   ∃ a b c d rest, py_str v = (placement_code a b c d ++ rest)%string ∧
     0 ≤ a ≤ 9 ∧ a ≠ 2 ∧ a ≠ 3 ∧ (b = 1 ∨ b = 2) ∧ (c = 1 ∨ c = 2) ∧
     (d = 0 ∨ d = 1 ∨ d = 2)).
Proof.
  destruct (dims_from_grid_loc_returns_tables v) as [Htuple Hnone].
  split.
  - rewrite Htuple. split.
    + intros (a & b & c & d & rest & Hs & Ha & Hb & Hc & Hd).
      apply horizontal_table_some in Hb, Hc. apply vertical_table_some in Hd.
      by exists a, b, c, d, rest.
    + intros (a & b & c & d & rest & Hs & Ha & Hb & Hc & Hd).
      apply horizontal_table_some in Hb, Hc. apply vertical_table_some in Hd.
      by exists a, b, c, d, rest.
  - rewrite Hnone. split.
    + intros (a & b & c & d & rest & Hs & Ha & H2 & H3 & Hb & Hc & Hd).
      apply horizontal_table_some in Hb, Hc. apply vertical_table_some in Hd.
      by exists a, b, c, d, rest.
    + intros (a & b & c & d & rest & Hs & Ha & H2 & H3 & Hb & Hc & Hd).
      apply horizontal_table_some in Hb, Hc. apply vertical_table_some in Hd.
      by exists a, b, c, d, rest.
Qed.

Lemma dims_from_grid_loc_returns_iff_witness :
  (∃ t, _dims_from_grid_loc (VInt 32125) = Ret (Some t)) ∧
  _dims_from_grid_loc (VStr "0110-xyz") = Ret None.
Proof.
  split.
  - apply (dims_from_grid_loc_returns_iff (VInt 32125)).
    exists 3, 2, 1, 2, "5". repeat split; auto.
  - apply (dims_from_grid_loc_returns_iff (VStr "0110-xyz")).
    exists 0, 1, 1, 0, "-xyz". repeat split; auto; lia.
Defined.

(** X2: a tuple the decoder returns is read off the second, third and
    fourth character of the string form of its argument.  Its last name
    is the one of the second character (the X digit) and the name before
    it the one of the third character (the Y digit), both through the
    one table 1 to ['XT'], 2 to ['XU']; at most one name comes before
    them, the one of the fourth character (0 to ['surface'], 1 to
    ['z_t'], 2 to ['z_w']).  It never holds a name of a Y axis (['YT'],
    ['YU']). *)
Theorem dims_from_grid_loc_vocabulary (v : pyval) (t : list string) :
  _dims_from_grid_loc v = Ret (Some t) →
  ∃ a b c d rest X Y,
    py_str v = (placement_code a b c d ++ rest)%string ∧
    (b = 1 ∧ X = "XT" ∨ b = 2 ∧ X = "XU") ∧
    (c = 1 ∧ Y = "XT" ∨ c = 2 ∧ Y = "XU") ∧
    (t = [Y; X] ∨
     ∃ Zn, t = [Zn; Y; X] ∧
       (d = 0 ∧ Zn = "surface" ∨ d = 1 ∧ Zn = "z_t" ∨ d = 2 ∧ Zn = "z_w")) ∧
    ("YT" ∉ t) ∧ ("YU" ∉ t).
Proof.
  rewrite (dims_from_grid_loc_str v). intros Ht.
  destruct (dims_from_grid_loc_four_digits _ (Some t) (or_introl Ht))
    as (a & b & c & d & rest & Hs & Ha & Hb & Hc & Hd).
  rewrite Hs, dims_from_grid_loc_digits in Ht by done.
  destruct (table_lookup horizontal_table b) as [X |] eqn:HX; [| done].
  destruct (table_lookup horizontal_table c) as [Y |] eqn:HY; [| done].
  destruct (table_lookup vertical_table d) as [Zn |] eqn:HZ; [| done].
  apply horizontal_table_inv in HX, HY. apply vertical_table_inv in HZ.
  assert (X ≠ "YT" ∧ X ≠ "YU") as [? ?]
    by (destruct HX as [[_ ->] | [_ ->]]; split; discriminate).
  assert (Y ≠ "YT" ∧ Y ≠ "YU") as [? ?]
    by (destruct HY as [[_ ->] | [_ ->]]; split; discriminate).
  assert (Zn ≠ "YT" ∧ Zn ≠ "YU") as [? ?]
    by (destruct HZ as [[_ ->] | [[_ ->] | [_ ->]]]; split; discriminate).
  assert (t = [Y; X] ∨ t = [Zn; Y; X]) as Hshape.
  { destruct (a =? 3); [destruct (String.eqb Zn "surface") |
                        destruct (a =? 2); [| done]];
      injection Ht as <-; auto. }
  exists a, b, c, d, rest, X, Y.
  split; [exact Hs |]. split; [exact HX |]. split; [exact HY |]. split.
  - destruct Hshape as [-> | ->]; [by left | right; by exists Zn].
  - destruct Hshape as [-> | ->]; split; intros Hin;
      repeat (apply elem_of_cons in Hin as [Hin | Hin]; [congruence |]);
      by apply elem_of_nil in Hin.
Qed.

Lemma dims_from_grid_loc_vocabulary_witness :
  "YU" ∉ ["z_w"; "XU"; "XT"].
Proof.
  destruct (dims_from_grid_loc_vocabulary (VStr "3122") ["z_w"; "XU"; "XT"] eq_refl)
    as (a & b & c & d & rest & X & Y & _ & _ & _ & _ & _ & H).
  exact H.
Defined.

(** X3: the decoder raises [KeyError] exactly when the string starts
    with four digits of which a staggering digit is not in its table;
    the first digit plays no part, so ['4911'] is a [KeyError] and not
    the [None] of ['4111']. *)
Theorem dims_from_grid_loc_key_error_iff (v : pyval) :
  _dims_from_grid_loc v = Raise KeyError ↔
  ∃ a b c d rest, py_str v = (placement_code a b c d ++ rest)%string ∧
    0 ≤ a ≤ 9 ∧ 0 ≤ b ≤ 9 ∧ 0 ≤ c ≤ 9 ∧ 0 ≤ d ≤ 9 ∧
    (table_lookup horizontal_table b = None ∨
     table_lookup horizontal_table c = None ∨
     table_lookup vertical_table d = None).
Proof.
  rewrite (dims_from_grid_loc_str v). generalize (py_str v) as s. intros s. split.
  - intros Hkey.
    destruct (dims_from_grid_loc_four_digits s None (or_intror Hkey))
      as (a & b & c & d & rest & -> & Ha & Hb & Hc & Hd).
    rewrite dims_from_grid_loc_digits in Hkey by done.
    exists a, b, c, d, rest. repeat split; try lia.
    destruct (table_lookup horizontal_table b); [| by left].
    destruct (table_lookup horizontal_table c); [| by right; left].
    destruct (table_lookup vertical_table d); [| by right; right].
    repeat case_match; done.
  - intros (a & b & c & d & rest & -> & Ha & Hb & Hc & Hd & Hbad).
    rewrite dims_from_grid_loc_digits by done.
    destruct Hbad as [-> | [-> | ->]]; [done | by case_match | by repeat case_match].
Qed.

Lemma dims_from_grid_loc_key_error_iff_witness :
  _dims_from_grid_loc (VStr "4911") = Raise KeyError.
Proof.
  apply (dims_from_grid_loc_key_error_iff (VStr "4911")).
  exists 4, 9, 1, 1, "". repeat split; try lia. by left.
Defined.

(** X4: the decoder raises [IndexError] exactly on a string of fewer
    than four characters that are all digits (the empty string among
    them), and [ValueError] exactly when one of the first four
    characters is not a digit. *)
Theorem dims_from_grid_loc_index_value_error_iff (v : pyval) :
  (_dims_from_grid_loc v = Raise IndexError ↔
   (String.length (py_str v) < 4)%nat ∧
   ∀ i c, String.get i (py_str v) = Some c → is_digit c = true) ∧
  (_dims_from_grid_loc v = Raise ValueError ↔
   ∃ i c, (i < 4)%nat ∧ String.get i (py_str v) = Some c ∧ is_digit c = false).
Proof.
  rewrite (dims_from_grid_loc_str v). generalize (py_str v) as s. intros s.
  destruct (dims_from_grid_loc_scan s)
    as [(Hlen & Hdig & Hres) | [[(i & c & Hi & Hc & Hnd) Hres] |
        (a & b & c & d & rest & Hs & Ha & Hb & Hc & Hd)]].
  - rewrite Hres. split; split; try done.
    intros (i & c & _ & Hc & Hnd). rewrite (Hdig i c Hc) in Hnd. done.
  - rewrite Hres. split; split; try done; [| by eauto].
    intros [_ Hdig]. rewrite (Hdig i c Hc) in Hnd. done.
  - subst s.
    change (placement_code a b c d ++ rest)%string
      with (String (digit_char a) (String (digit_char b) (String (digit_char c)
             (String (digit_char d) rest)))).
    split; split.
    + intros Hres.
      destruct (dims_from_grid_loc_digits_outcome a b c d rest Ha Hb Hc Hd) as [H | [r H]];
        change (placement_code a b c d ++ rest)%string
          with (String (digit_char a) (String (digit_char b) (String (digit_char c)
                 (String (digit_char d) rest)))) in H;
        rewrite H in Hres; done.
    + intros [Hlen _]. cbn in Hlen. lia.
    + intros Hres.
      destruct (dims_from_grid_loc_digits_outcome a b c d rest Ha Hb Hc Hd) as [H | [r H]];
        change (placement_code a b c d ++ rest)%string
          with (String (digit_char a) (String (digit_char b) (String (digit_char c)
                 (String (digit_char d) rest)))) in H;
        rewrite H in Hres; done.
    + intros (i & ch & Hi & Hch & Hnd). exfalso.
      assert (∀ k, 0 ≤ k ≤ 9 → is_digit (digit_char k) = true) as Hdc.
      { intros k Hk. destruct (int_of_char_inv _ _ (int_of_char_digit k Hk)) as (_ & _ & H).
        exact H. }
      destruct i as [| [| [| [| i]]]]; [| | | | lia]; cbn in Hch;
        injection Hch as <-; rewrite Hdc in Hnd; done.
Qed.

Lemma dims_from_grid_loc_index_value_error_iff_witness :
  _dims_from_grid_loc (VStr "") = Raise IndexError ∧
  _dims_from_grid_loc VNone = Raise ValueError.
Proof.
  split.
  - apply (dims_from_grid_loc_index_value_error_iff (VStr "")).
    split; [cbn; lia | by intros [| i] c].
  - apply (dims_from_grid_loc_index_value_error_iff VNone).
    exists 0%nat, "N"%char. split; [lia | split; reflexivity].
Defined.

(** X5: the X and Y names of a returned tuple are one and the same name
    exactly when the X and Y digits are equal: such a tuple names a
    dimension twice. *)
Theorem dims_from_grid_loc_distinct_iff (v : pyval) (a b c d : Z) (rest : string)
    (t : list string) :
  py_str v = (placement_code a b c d ++ rest)%string →
  0 ≤ a ≤ 9 → 0 ≤ b ≤ 9 → 0 ≤ c ≤ 9 → 0 ≤ d ≤ 9 →
  _dims_from_grid_loc v = Ret (Some t) →
  (NoDup t ↔ b ≠ c).
Proof.
  intros Hs Ha Hb Hc Hd. rewrite (dims_from_grid_loc_str v), Hs.
  rewrite dims_from_grid_loc_digits by done.
  destruct (table_lookup horizontal_table b) as [X |] eqn:HX; [| done].
  destruct (table_lookup horizontal_table c) as [Y |] eqn:HY; [| done].
  destruct (table_lookup vertical_table d) as [Zn |] eqn:HZ; [| done].
  intros Ht.
  assert (t = [Y; X] ∨ t = [Zn; Y; X]) as Hshape.
  { destruct (a =? 3); [destruct (String.eqb Zn "surface") |
                        destruct (a =? 2); [| done]];
      injection Ht as <-; auto. }
  clear Ht.
  apply horizontal_table_inv in HX as [[-> ->] | [-> ->]];
    apply horizontal_table_inv in HY as [[-> ->] | [-> ->]];
    apply vertical_table_inv in HZ as [[-> ->] | [[-> ->] | [-> ->]]];
    destruct Hshape as [-> | ->];
    (split; [intros Hnd; first [ done | exfalso; revert Hnd; compute_done ]
            | intros Hne; first [ done | compute_done ]]).
Qed.

Lemma dims_from_grid_loc_distinct_iff_witness :
  ¬ NoDup ["z_t"; "XT"; "XT"] ∧ NoDup ["z_w"; "XT"; "XU"].
Proof.
  split.
  - intros Hnd.
    by apply (dims_from_grid_loc_distinct_iff (VStr "3111") 3 1 1 1 "" ["z_t"; "XT"; "XT"]) in Hnd.
  - by apply (dims_from_grid_loc_distinct_iff (VInt 3212) 3 2 1 2 "" ["z_w"; "XT"; "XU"]).
Defined.

Lemma grid_locs_lookup_elem (name code : string) (t : list (string * string)) :
  grid_locs_lookup name t = Some code → (name, code) ∈ t.
Proof.
  induction t as [| [n c] t IH]; cbn; [done |].
  case_decide as Hn; [intros [= ->]; subst; apply list_elem_of_here |].
  intros H. apply list_elem_of_further. by apply IH.
Qed.

Lemma grid_locs_all_decode :
  Forall (fun e : string * string =>
            ∃ Zn Y X, _dims_from_grid_loc (VStr e.2) = Ret (Some [Zn; Y; X]) ∧
              (String.get 0 e.2 = Some "2"%char → Zn = "surface") ∧
              (String.get 0 e.2 = Some "3"%char → Zn = "z_t" ∨ Zn = "z_w")) grid_locs.
Proof.
  unfold grid_locs.
  repeat (apply Forall_cons; split;
          [ eexists _, _, _; split; [reflexivity |];
            split; intros H; first [ discriminate H | reflexivity | by left | by right ]
          |]).
  apply Forall_nil_2.
Qed.

(** X6: every code of the registry [grid_locs] decodes to a tuple of
    three names.  For a code that starts with 2 the first of them is
    ['surface'], for a code that starts with 3 it is ['z_t'] or ['z_w']:
    the two-name case of the decoder is met by no registered variable. *)
Theorem grid_locs_decode (name code : string) :
  grid_locs_lookup name grid_locs = Some code →
  ∃ Zn Y X, _dims_from_grid_loc (VStr code) = Ret (Some [Zn; Y; X]) ∧
    (String.get 0 code = Some "2"%char → Zn = "surface") ∧
    (String.get 0 code = Some "3"%char → Zn = "z_t" ∨ Zn = "z_w").
Proof.
  intros Hin%grid_locs_lookup_elem.
  pose proof grid_locs_all_decode as Hall. rewrite Forall_forall in Hall.
  exact (Hall _ Hin).
Qed.

Lemma grid_locs_decode_witness :
  ∃ Zn Y X, _dims_from_grid_loc (VStr "2110") = Ret (Some [Zn; Y; X]) ∧ Zn = "surface".
Proof.
  destruct (grid_locs_decode "TLAT" "2110" eq_refl) as (Zn & Y & X & Hd & H2 & _).
  exists Zn, Y, X. split; [exact Hd | by apply H2].
Defined.

(** * Further properties of the tagging step *)

Lemma dim_attrs_update_id (n : string) (ds : Dataset) :
  dim_attrs_update n (fun a => a) ds = ds.
Proof.
  destruct ds as [dd vs cn]. unfold dim_attrs_update. cbn. f_equal.
  induction vs as [| [m v] vs IH]; cbn; [done |].
  case_decide; [by rewrite with_attrs_id | by rewrite IH].
Qed.

Lemma vars_lookup_names (n : string) (v : xr_Variable) (vs : list (string * xr_Variable)) :
  vars_lookup n vs = Some v → n ∈ vs.*1.
Proof.
  induction vs as [| [m w] vs IH]; cbn; [done |].
  case_decide as Hm; [subst; intros _; apply list_elem_of_here |].
  intros H. apply list_elem_of_further. by apply IH.
Qed.

(** A loop [for n in names: ds[n].attrs = f(n, ds[n].attrs)] with an
    idempotent [f] rewrites the attributes of the named variables by [f]. *)
Lemma foldl_update_rewritten (f : string → Attrs → Attrs) (l : list string) (ds : Dataset) :
  (∀ n a, f n (f n a) = f n a) →
  rewritten (fun n a => if decide (n ∈ l) then f n a else a) ds
            (foldl (fun ds n => dim_attrs_update n (f n) ds) ds l).
Proof.
  intros Hidem. induction l as [| d l IH] using rev_ind.
  - eapply rewritten_ext; cycle 1; [apply rewritten_refl |].
    intros n a. cbn. by rewrite decide_False by apply not_elem_of_nil.
  - rewrite foldl_app. cbn [foldl].
    eapply rewritten_ext; cycle 1; [apply rewritten_update, IH |].
    intros n a. cbn.
    destruct (decide (d = n)) as [-> | Hdn].
    + rewrite (decide_True (P := n ∈ l ++ [n]))
        by (apply elem_of_app; right; apply list_elem_of_here).
      by case_decide.
    + destruct (decide (n ∈ l)) as [Hin | Hin].
      * by rewrite decide_True by (apply elem_of_app; by left).
      * rewrite decide_False; [done |].
        rewrite elem_of_app, list_elem_of_singleton. by intros [? | ->].
Qed.

Lemma label_coord_grid_locs_fold (ds : Dataset) :
  _label_coord_grid_locs ds
  = foldl (fun ds n => dim_attrs_update n (grid_loc_attr n) ds) ds (variables ds).*1.
Proof.
  unfold _label_coord_grid_locs. generalize ((variables ds).*1) as names.
  intros names. revert ds. induction names as [| n names IH]; intros ds; cbn [foldl];
    [done |].
  rewrite IH. f_equal. unfold grid_loc_attr.
  destruct (grid_locs_lookup n grid_locs); [done | by rewrite dim_attrs_update_id].
Qed.

Lemma grid_loc_attr_idem (n : string) (a : Attrs) :
  grid_loc_attr n (grid_loc_attr n a) = grid_loc_attr n a.
Proof.
  unfold grid_loc_attr. destruct (grid_locs_lookup n grid_locs); [| done].
  by rewrite insert_insert_eq.
Qed.

(** X7: tagging keeps the dimensions, the coordinate names and the
    variable names of the dataset, and the dimension names, data and
    encoding of every variable.  A variable whose name is in the
    registry gets ['grid_loc'] set to its code, over a value it may have
    had; the attributes of any other variable, a ['grid_loc'] it came
    with included, are left as they are. *)
Theorem label_coord_grid_locs_effect (ds : Dataset) :
  let ds' := _label_coord_grid_locs ds in
  ds_dims ds' = ds_dims ds ∧ coord_names ds' = coord_names ds ∧
  (variables ds').*1 = (variables ds).*1 ∧
  ∀ n v, vars_lookup n (variables ds) = Some v →
    ∃ v', vars_lookup n (variables ds') = Some v' ∧
      dims v' = dims v ∧ data v' = data v ∧ encoding v' = encoding v ∧
      attrs v' = match grid_locs_lookup n grid_locs with
                 | Some code => <["grid_loc" := VStr code]> (attrs v)
                 | None => attrs v
                 end.
Proof.
  intros ds'. subst ds'. rewrite label_coord_grid_locs_fold.
  destruct (foldl_update_rewritten grid_loc_attr (variables ds).*1 ds grid_loc_attr_idem)
    as (Hd & Hc & Hn & Hl).
  repeat split; try done.
  intros n v Hv. rewrite Hl, Hv. eexists. split; [reflexivity |]. cbn.
  repeat split. by rewrite decide_True by (by eapply vars_lookup_names).
Qed.

Lemma label_coord_grid_locs_effect_witness :
  ∃ v', vars_lookup "TEMP" (variables (_label_coord_grid_locs pop_dataset)) = Some v' ∧
    attrs v' !! "grid_loc" = Some (VStr "3111") ∧ dims v' = ["z_t"; "nlat"; "nlon"].
Proof.
  destruct (label_coord_grid_locs_effect pop_dataset) as (_ & _ & _ & H).
  destruct (H "TEMP" _ eq_refl) as (v' & Hv & Hdims & _ & _ & Hattrs).
  exists v'. split; [exact Hv |]. split; [| exact Hdims].
  rewrite Hattrs. cbn. apply lookup_insert_eq.
Defined.

Lemma vars_alter_idem (f : xr_Variable → xr_Variable) (n : string)
    (vs : list (string * xr_Variable)) :
  (∀ v, f (f v) = f v) → vars_alter f n (vars_alter f n vs) = vars_alter f n vs.
Proof.
  intros Hf. induction vs as [| [m v] vs IH]; cbn; [done |].
  case_decide as Hm; cbn; rewrite ?decide_True, ?decide_False by done;
    [by rewrite Hf | by rewrite IH].
Qed.

Lemma vars_alter_comm (f g : xr_Variable → xr_Variable) (n m : string)
    (vs : list (string * xr_Variable)) :
  n ≠ m → vars_alter f n (vars_alter g m vs) = vars_alter g m (vars_alter f n vs).
Proof.
  intros Hnm. induction vs as [| [k v] vs IH]; cbn; [done |].
  destruct (decide (k = m)) as [Hkm | Hkm]; destruct (decide (k = n)) as [Hkn | Hkn];
    cbn; repeat (case_decide; simplify_eq; cbn); try done.
  by rewrite IH.
Qed.

Lemma label_step_comm (n m : string) (ds : Dataset) :
  dim_attrs_update n (grid_loc_attr n) (dim_attrs_update m (grid_loc_attr m) ds)
  = dim_attrs_update m (grid_loc_attr m) (dim_attrs_update n (grid_loc_attr n) ds).
Proof.
  destruct (decide (n = m)) as [-> | Hnm]; [done |].
  unfold dim_attrs_update. cbn. f_equal. by apply vars_alter_comm.
Qed.

Lemma label_step_foldl (n : string) (l : list string) (ds : Dataset) :
  dim_attrs_update n (grid_loc_attr n)
    (foldl (fun ds n => dim_attrs_update n (grid_loc_attr n) ds) ds l)
  = foldl (fun ds n => dim_attrs_update n (grid_loc_attr n) ds)
      (dim_attrs_update n (grid_loc_attr n) ds) l.
Proof.
  revert ds. induction l as [| m l IH]; intros ds; cbn [foldl]; [done |].
  by rewrite IH, label_step_comm.
Qed.

(** X8: tagging is idempotent: a dataset that was tagged is left as it
    is by a second tagging. *)
Theorem label_coord_grid_locs_idempotent (ds : Dataset) :
  _label_coord_grid_locs (_label_coord_grid_locs ds) = _label_coord_grid_locs ds.
Proof.
  assert ((variables (_label_coord_grid_locs ds)).*1 = (variables ds).*1) as Hnames.
  { rewrite label_coord_grid_locs_fold.
    apply (foldl_update_rewritten grid_loc_attr (variables ds).*1 ds grid_loc_attr_idem). }
  rewrite (label_coord_grid_locs_fold (_label_coord_grid_locs ds)), Hnames.
  rewrite label_coord_grid_locs_fold. generalize ((variables ds).*1) as l.
  clear Hnames. intros l. revert ds.
  induction l as [| n l IH]; intros ds; cbn [foldl]; [done |].
  assert (dim_attrs_update n (grid_loc_attr n) (dim_attrs_update n (grid_loc_attr n) ds)
          = dim_attrs_update n (grid_loc_attr n) ds) as Hidem.
  { unfold dim_attrs_update. cbn. f_equal. apply vars_alter_idem.
    intros v. unfold with_attrs. cbn. by rewrite grid_loc_attr_idem. }
  rewrite label_step_foldl, Hidem. apply IH.
Qed.

(** * Further properties of the relabelling loop *)

Lemma vars_lookup_elem_names (n : string) (vs : list (string * xr_Variable)) :
  n ∈ vs.*1 → is_Some (vars_lookup n vs).
Proof.
  induction vs as [| [m w] vs IH]; cbn; [by intros ?%elem_of_nil |].
  case_decide; [by eauto |]. intros [? | ?]%elem_of_cons; [congruence | by apply IH].
Qed.

(** X9: on a dataset none of whose variables carries ['grid_loc'] the
    loop of [_relabel_pop_dims] runs over all variables, raises nothing
    and leaves the dataset as it is, in any namespace. *)
Theorem relabel_loop_untagged (globals : list (string * py_module)) (ds_new : Dataset) :
  (∀ n v, vars_lookup n (variables ds_new) = Some v → attrs v !! "grid_loc" = None) →
  for_each (relabel_variable globals) ds_new (variables ds_new).*1 = Ret ds_new.
Proof.
  intros Hno.
  assert (∀ l, (∀ n, n ∈ l → n ∈ (variables ds_new).*1) →
            for_each (relabel_variable globals) ds_new l = Ret ds_new) as Hloop.
  { induction l as [| n l IH]; intros Hsub; cbn [for_each]; [done |].
    destruct (vars_lookup_elem_names n (variables ds_new)) as [v Hv];
      [apply Hsub, list_elem_of_here |].
    assert (relabel_variable globals ds_new n = Ret ds_new) as ->
      by (unfold relabel_variable; by rewrite Hv, (Hno n v Hv)).
    cbn [mbind result_bind]. apply IH. intros m Hm. by apply Hsub, list_elem_of_further. }
  by apply Hloop.
Qed.

Lemma relabel_loop_untagged_witness :
  for_each (relabel_variable module_globals) unregistered_dataset
    (variables unregistered_dataset).*1 = Ret unregistered_dataset.
Proof.
  apply (relabel_loop_untagged module_globals unregistered_dataset).
  intros n v. unfold unregistered_dataset, pop_coordinates. cbn.
  repeat (case_decide; [by intros [= <-] |]). done.
Defined.

(** X10: a registered two-dimensional field cannot be relabelled.  Its
    code starts with 2 and decodes to three names, ['surface'] first, so
    for a variable over (nlat, nlon), or over ('Nt', nlat, nlon), the
    new tuple has one name more than the data has axes and
    [_xr.Variable] raises [ValueError]. *)
Theorem relabel_variable_two_dimensional (ds_new : Dataset) (vname code d1 d2 : string)
    (da : xr_Variable) :
  vars_lookup vname (variables ds_new) = Some da →
  grid_locs_lookup vname grid_locs = Some code →
  attrs da !! "grid_loc" = Some (VStr code) →
  String.get 0 code = Some "2"%char →
  (dims da = [d1; d2] ∧ d1 ≠ "Nt") ∨ dims da = ["Nt"; d1; d2] →
  length (shape (data da)) = length (dims da) →
  relabel_variable module_globals ds_new vname = Raise ValueError.
Proof.
  intros Hv Hreg Hattr H2 Hdims Hrank.
  pose proof grid_locs_all_decode as Hall. rewrite Forall_forall in Hall.
  destruct (Hall (vname, code) (grid_locs_lookup_elem _ _ _ Hreg))
    as (Zn & Y & X & Hdec & _).
  clear Hall. cbn [snd] in Hdec.
  unfold relabel_variable. rewrite Hv, Hattr, Hdec. cbn [mbind result_bind].
  destruct Hdims as [[Hd Hnt] | Hd]; rewrite Hd in *; cbn [tuple_head mbind result_bind].
  - apply String.eqb_neq in Hnt. rewrite Hnt. cbn [mbind result_bind].
    unfold global, Variable_new. cbn. cbn in Hrank. by rewrite Hrank.
  - cbn. unfold Variable_new. cbn. cbn in Hrank. by rewrite Hrank.
Qed.

Lemma relabel_variable_two_dimensional_witness :
  relabel_variable module_globals
    (mkDataset [("nlat", 3%nat); ("nlon", 4%nat)]
       [("TLAT", mkVariable ["nlat"; "nlon"] (Buffer 0 [3%nat; 4%nat])
                   {[ "grid_loc" := VStr "2110" ]} ∅)] [])
    "TLAT" = Raise ValueError.
Proof.
  apply (relabel_variable_two_dimensional _ "TLAT" "2110" "nlat" "nlon"
           (mkVariable ["nlat"; "nlon"] (Buffer 0 [3%nat; 4%nat])
              {[ "grid_loc" := VStr "2110" ]} ∅));
    try reflexivity.
  left. split; [reflexivity | discriminate].
Defined.

(** X11: the loop body on a tagged variable it cannot handle.  When the
    decoder returns [None] (a first digit other than 2 and 3) the body
    raises [TypeError], with or without a leading ['Nt']: the variable
    is not skipped.  When the variable has no dimension at all, the body
    raises [IndexError] once the decoder has returned. *)
Theorem relabel_variable_edge_errors (globals : list (string * py_module))
    (ds_new : Dataset) (vname : string) (da : xr_Variable) (grid_loc : pyval)
    (r : option (list string)) :
  vars_lookup vname (variables ds_new) = Some da →
  attrs da !! "grid_loc" = Some grid_loc →
  _dims_from_grid_loc grid_loc = Ret r →
  namespace_lookup "_xr" globals = Some xarray →
  (dims da = [] → relabel_variable globals ds_new vname = Raise IndexError) ∧
  (dims da ≠ [] → r = None → relabel_variable globals ds_new vname = Raise TypeError).
Proof.
  intros Hv Hattr Hdec Hxr. unfold relabel_variable, global.
  rewrite Hv, Hattr, Hdec, Hxr. cbn [mbind result_bind]. split.
  - by intros ->.
  - intros Hne ->. destruct (dims da) as [| d0 rest]; [done |].
    cbn [tuple_head mbind result_bind]. by destruct (String.eqb d0 "Nt").
Qed.

Lemma relabel_variable_edge_errors_witness :
  relabel_variable module_globals
    (mkDataset [] [("KMT", mkVariable [] (Buffer 0 []) {[ "grid_loc" := VStr "2110" ]} ∅)] [])
    "KMT" = Raise IndexError ∧
  relabel_variable module_globals
    (mkDataset [("Nt", 2%nat)]
       [("Q", mkVariable ["Nt"] (Buffer 0 [2%nat]) {[ "grid_loc" := VInt 4111 ]} ∅)] [])
    "Q" = Raise TypeError.
Proof.
  split.
  - by apply (relabel_variable_edge_errors module_globals _ "KMT"
                (mkVariable [] (Buffer 0 []) {[ "grid_loc" := VStr "2110" ]} ∅)
                (VStr "2110") (Some ["surface"; "XT"; "XT"])).
  - by apply (relabel_variable_edge_errors module_globals _ "Q"
                (mkVariable ["Nt"] (Buffer 0 [2%nat]) {[ "grid_loc" := VInt 4111 ]} ∅)
                (VInt 4111) None).
Defined.

(** * Further properties of [_create_grid] *)

Lemma comodo_entries_clean (n : string) (es : list (string * (string * pyval)))
    (a : Attrs) :
  delete "c_grid_axis_shift" (delete "axis" (foldl (comodo_entry n) a es))
  = delete "c_grid_axis_shift" (delete "axis" a).
Proof.
  revert a. induction es as [| e es IH]; intros a; cbn [foldl]; [done |].
  rewrite IH. unfold comodo_entry. repeat case_match; attrs_eq.
Qed.

Lemma comodo_attrs_idem (ds : list string) (es : list (string * (string * pyval)))
    (n : string) (a : Attrs) :
  comodo_attrs ds es n (comodo_attrs ds es n a) = comodo_attrs ds es n a.
Proof.
  unfold comodo_attrs. destruct (decide (n ∈ ds)); [| done].
  rewrite comodo_entries_clean. f_equal. attrs_eq.
Qed.

(** Where a comodo attribute found after the loops comes from. *)
Lemma comodo_entries_origin (n : string) (es : list (string * (string * pyval)))
    (a : Attrs) (x : pyval) :
  (foldl (comodo_entry n) a es !! "axis" = Some x →
   a !! "axis" = Some x ∨ ∃ axis shift, (axis, (n, shift)) ∈ es ∧ x = VStr axis) ∧
  (foldl (comodo_entry n) a es !! "c_grid_axis_shift" = Some x →
   a !! "c_grid_axis_shift" = Some x ∨
   ∃ axis shift, (axis, (n, shift)) ∈ es ∧ py_truthy shift = true ∧
     x = VStr (py_str shift)).
Proof.
  induction es as [| [axis [dim shift]] es IH] using rev_ind; [by split; left |].
  rewrite foldl_app. cbn [foldl]. destruct IH as [IHa IHs].
  unfold comodo_entry at 1 3. cbn.
  destruct (decide (dim = n)) as [-> | Hne].
  - split; intros Hx.
    + right. exists axis, shift. split; [apply elem_of_app; right; apply list_elem_of_here |].
      destruct (py_truthy shift);
        rewrite ?lookup_insert_ne, lookup_insert_eq in Hx by done; congruence.
    + destruct (py_truthy shift) eqn:Hsh.
      * rewrite lookup_insert_eq in Hx. right. exists axis, shift.
        split; [apply elem_of_app; right; apply list_elem_of_here |]. split; congruence.
      * rewrite lookup_insert_ne in Hx by done.
        destruct (IHs Hx) as [? | (ax & sh & Hin & ?)]; [by left |].
        right. exists ax, sh. split; [apply elem_of_app; by left | done].
  - split; intros Hx.
    + destruct (IHa Hx) as [? | (ax & sh & Hin & ?)]; [by left |].
      right. exists ax, sh. split; [apply elem_of_app; by left | done].
    + destruct (IHs Hx) as [? | (ax & sh & Hin & ?)]; [by left |].
      right. exists ax, sh. split; [apply elem_of_app; by left | done].
Qed.

(** The last entry that names a dimension decides its ['axis']; the last
    one that names it with a true shift decides its shift. *)
Lemma comodo_entries_last (n axis : string) (shift : pyval)
    (l1 l2 : list (string * (string * pyval))) (a : Attrs) :
  (n ∉ l2.*2.*1 →
   foldl (comodo_entry n) a (l1 ++ (axis, (n, shift)) :: l2) !! "axis" = Some (VStr axis)) ∧
  (py_truthy shift = true →
   (∀ ax sh, (ax, (n, sh)) ∈ l2 → py_truthy sh = false) →
   foldl (comodo_entry n) a (l1 ++ (axis, (n, shift)) :: l2) !! "c_grid_axis_shift"
   = Some (VStr (py_str shift))).
Proof.
  rewrite foldl_app. cbn [foldl]. set (a1 := foldl (comodo_entry n) a l1). split.
  - intros H2. rewrite comodo_entries_not_named by done.
    unfold comodo_entry. cbn. rewrite decide_True by done.
    destruct (py_truthy shift); by rewrite ?lookup_insert_ne, lookup_insert_eq by done.
  - intros Hsh H2.
    assert (comodo_entry n a1 (axis, (n, shift)) !! "c_grid_axis_shift"
            = Some (VStr (py_str shift))) as Hstart.
    { unfold comodo_entry. cbn. rewrite decide_True by done. rewrite Hsh.
      apply lookup_insert_eq. }
    revert Hstart. generalize (comodo_entry n a1 (axis, (n, shift))) as b.
    induction l2 as [| [ax [dim sh]] l2 IH]; intros b Hb; cbn [foldl]; [done |].
    apply IH.
    + intros ax' sh' Hin. eapply H2. by apply list_elem_of_further.
    + unfold comodo_entry. cbn. destruct (decide (dim = n)) as [-> | Hne]; [| done].
      rewrite (H2 ax sh) by apply list_elem_of_here.
      by rewrite lookup_insert_ne.
Qed.

Section CreateGridFurther.
Context {Grid Periodic FaceConnections : Type}.
Variable xgcm_Grid : Dataset → Periodic → option FaceConnections → result Grid.
Variable axes : Grid → list pyval.

(** X12: annotating twice with one axis spec is annotating once.  A
    second call of [_create_grid] on the dataset the first call left,
    with the same spec, leaves the same dimensions, coordinate names and
    variables (each variable with the same dimension names, data,
    attributes and encoding), and emits the same warnings. *)
Theorem create_grid_idempotent (ds : Dataset) (coords : Coords) (p p' : Periodic)
    (fc fc' : option FaceConnections) :
  let o1 := _create_grid xgcm_Grid axes ds coords p fc in
  let o2 := _create_grid xgcm_Grid axes (dataset_after o1) coords p' fc' in
  ds_dims (dataset_after o2) = ds_dims (dataset_after o1) ∧
  coord_names (dataset_after o2) = coord_names (dataset_after o1) ∧
  (variables (dataset_after o2)).*1 = (variables (dataset_after o1)).*1 ∧
  (∀ n, vars_lookup n (variables (dataset_after o2))
        = vars_lookup n (variables (dataset_after o1))) ∧
  warnings o2 = warnings o1.
Proof.
  intros o1 o2.
  destruct (create_grid_rewritten xgcm_Grid axes ds coords p fc) as (Hd1 & Hc1 & Hn1 & Hl1).
  destruct (create_grid_rewritten xgcm_Grid axes (dataset_after o1) coords p' fc')
    as (Hd2 & Hc2 & Hn2 & Hl2).
  fold o1 in Hd1, Hc1, Hn1, Hl1, Hd2, Hc2, Hn2, Hl2. fold o2 in Hd2, Hc2, Hn2, Hl2.
  assert (dim_names (dataset_after o1) = dim_names ds) as Hdn
    by (unfold dim_names; by rewrite Hd1).
  repeat split; try done.
  - intros n. rewrite Hl2, Hl1, Hdn.
    destruct (vars_lookup n (variables ds)) as [v |]; cbn; [| done].
    unfold with_attrs. cbn. by rewrite comodo_attrs_idem.
  - unfold o2, o1. rewrite !create_grid_warnings, !create_grid_warn_dims.
    fold o1. by rewrite Hdn.
Qed.

(** X13: after a call no comodo attribute of a dimension is left over
    from before.  An ['axis'] found on a dimension of the dataset is an
    axis label under which the spec names that dimension, and a
    ['c_grid_axis_shift'] is the [str()] of a true shift the spec gives
    it; both are strings. *)
Theorem create_grid_comodo_origin (ds : Dataset) (coords : Coords) (p : Periodic)
    (fc : option FaceConnections) (dim : string) (x : pyval) :
  dim ∈ dim_names ds →
  let ds' := dataset_after (_create_grid xgcm_Grid axes ds coords p fc) in
  (attrs_of ds' dim !! "axis" = Some x →
   ∃ axis shift, (axis, (dim, shift)) ∈ coords_entries coords ∧ x = VStr axis) ∧
  (attrs_of ds' dim !! "c_grid_axis_shift" = Some x →
   ∃ axis shift, (axis, (dim, shift)) ∈ coords_entries coords ∧
     py_truthy shift = true ∧ x = VStr (py_str shift)).
Proof.
  intros Hin ds'.
  destruct (create_grid_rewritten xgcm_Grid axes ds coords p fc) as (_ & _ & _ & Hl).
  fold ds' in Hl. unfold attrs_of. rewrite Hl.
  destruct (vars_lookup dim (variables ds)) as [v |]; cbn; [| by split].
  unfold comodo_attrs. rewrite decide_True by done.
  destruct (comodo_entries_origin dim (coords_entries coords)
              (delete "c_grid_axis_shift" (delete "axis" (attrs v))) x) as [Ha Hs].
  split; intros Hx.
  - destruct (Ha Hx) as [Hold | ?]; [| done].
    by rewrite lookup_delete_ne, lookup_delete_eq in Hold.
  - destruct (Hs Hx) as [Hold | ?]; [| done].
    by rewrite lookup_delete_eq in Hold.
Qed.

(** X14: when the spec names a dimension (with its coordinate variable)
    more than once, the last entry decides ['axis'], and the last entry
    with a true shift decides ['c_grid_axis_shift']: a later entry
    without shift changes the axis and leaves the earlier shift. *)
Theorem create_grid_last_entry (ds : Dataset) (coords : Coords) (p : Periodic)
    (fc : option FaceConnections) (axis dim : string) (shift : pyval)
    (l1 l2 : list (string * (string * pyval))) :
  dim ∈ dim_names ds →
  is_Some (vars_lookup dim (variables ds)) →
  coords_entries coords = l1 ++ (axis, (dim, shift)) :: l2 →
  let ds' := dataset_after (_create_grid xgcm_Grid axes ds coords p fc) in
  (dim ∉ l2.*2.*1 → attrs_of ds' dim !! "axis" = Some (VStr axis)) ∧
  (py_truthy shift = true →
   (∀ ax sh, (ax, (dim, sh)) ∈ l2 → py_truthy sh = false) →
   attrs_of ds' dim !! "c_grid_axis_shift" = Some (VStr (py_str shift))).
Proof.
  intros Hin [v Hv] Hes ds'.
  destruct (create_grid_rewritten xgcm_Grid axes ds coords p fc) as (_ & _ & _ & Hl).
  fold ds' in Hl. unfold attrs_of. rewrite Hl, Hv. cbn.
  unfold comodo_attrs. rewrite decide_True by done. rewrite Hes.
  apply comodo_entries_last.
Qed.

End CreateGridFurther.

Lemma create_grid_comodo_origin_witness :
  ∃ axis shift, (axis, ("Xp1", shift)) ∈ coords_entries sample_coords ∧
    VStr "X" = VStr axis.
Proof.
  apply (create_grid_comodo_origin comodo_Grid id sample_dataset sample_coords [] None
           "Xp1" (VStr "X")).
  - compute_done.
  - vm_compute. reflexivity.
Defined.

Lemma create_grid_last_entry_witness :
  let ds' := dataset_after
               (_create_grid comodo_Grid id sample_dataset twice_named_coords [] None) in
  attrs_of ds' "X" !! "axis" = Some (VStr "Y") ∧
  attrs_of ds' "X" !! "c_grid_axis_shift" = Some (VStr "0.5").
Proof.
  cbn zeta. split.
  - apply (create_grid_last_entry comodo_Grid id sample_dataset twice_named_coords [] None
             "Y" "X" VNone [("X", ("X", VFloat true "0.5"))] []);
      [compute_done | by eexists | reflexivity | compute_done].
  - apply (create_grid_last_entry comodo_Grid id sample_dataset twice_named_coords [] None
             "X" "X" (VFloat true "0.5") [] [("Y", ("X", VNone))]);
      [compute_done | by eexists | reflexivity | reflexivity |].
    intros ax sh Hin. apply list_elem_of_singleton in Hin. by injection Hin as -> ->.
Defined.

(** * Properties of [_rename_coord_attrs] and [_restore_coord_attrs] *)

Lemma move_attr_absent (old new : string) (a : Attrs) :
  a !! old = None → move_attr old new a = a.
Proof.
  intros Hx. unfold move_attr. rewrite Hx. cbn. rewrite decide_True by done.
  apply map_eq. intros k. destruct (decide (k = old)) as [-> | ?];
    [by rewrite lookup_delete_eq | by rewrite lookup_delete_ne].
Qed.

Lemma move_attr_gone (old new : string) (a : Attrs) :
  old ≠ new → move_attr old new a !! old = None.
Proof.
  intros Hne. unfold move_attr. case_decide;
    by rewrite ?lookup_insert_ne, lookup_delete_eq by done.
Qed.

Lemma move_attr_idem (old new : string) (a : Attrs) :
  old ≠ new → move_attr old new (move_attr old new a) = move_attr old new a.
Proof. intros Hne. by apply move_attr_absent, move_attr_gone. Qed.

Lemma move_attr_other (old new k : string) (a : Attrs) :
  k ≠ old → k ≠ new → move_attr old new a !! k = a !! k.
Proof.
  intros H1 H2. unfold move_attr. case_decide;
    by rewrite ?lookup_insert_ne, lookup_delete_ne by done.
Qed.

(** Moving an attribute there and back gives the attributes one started
    from, if the target name was free and the value was not [None]. *)
Lemma move_attr_back (old new : string) (a : Attrs) :
  old ≠ new → a !! new = None → a !! old ≠ Some VNone →
  move_attr new old (move_attr old new a) = a.
Proof.
  intros Hne Hnew Hold. unfold move_attr at 2.
  destruct (a !! old) as [x |] eqn:Hx; cbn.
  - rewrite decide_False by congruence. unfold move_attr.
    rewrite lookup_insert_eq. cbn. rewrite decide_False by congruence.
    apply map_eq. intros k.
    destruct (decide (k = old)) as [-> | ?]; [by rewrite lookup_insert_eq |].
    rewrite lookup_insert_ne by done.
    destruct (decide (k = new)) as [-> | ?]; [by rewrite lookup_delete_eq |].
    by rewrite lookup_delete_ne, lookup_insert_ne, lookup_delete_ne by done.
  - rewrite decide_True by done. unfold move_attr.
    rewrite lookup_delete_ne, Hnew by done. cbn. rewrite decide_True by done.
    apply map_eq. intros k.
    destruct (decide (k = new)) as [-> | ?]; [by rewrite lookup_delete_eq |].
    rewrite lookup_delete_ne by done.
    destruct (decide (k = old)) as [-> | ?]; [by rewrite lookup_delete_eq |].
    by rewrite lookup_delete_ne.
Qed.

(** Each of the two functions rewrites the attributes of every variable
    by its [move_attr]. *)
Lemma move_attr_loop_rewritten (old new : string) (ds : Dataset) :
  old ≠ new →
  let ds' := foldl (fun ds var => dim_attrs_update var (move_attr old new) ds)
               ds (variables ds).*1 in
  ds_dims ds' = ds_dims ds ∧ coord_names ds' = coord_names ds ∧
  (variables ds').*1 = (variables ds).*1 ∧
  ∀ n, vars_lookup n (variables ds')
       = with_attrs (move_attr old new) <$> vars_lookup n (variables ds).
Proof.
  intros Hne ds'.
  destruct (foldl_update_rewritten (fun _ => move_attr old new) (variables ds).*1 ds
              (fun _ a => move_attr_idem old new a Hne)) as (Hd & Hc & Hn & Hl).
  repeat split; try done.
  intros n. subst ds'. rewrite Hl.
  destruct (vars_lookup n (variables ds)) as [v |] eqn:Hv; cbn; [| done].
  unfold with_attrs. by rewrite decide_True by (by eapply vars_lookup_names).
Qed.

(** X15: after [_rename_coord_attrs] no variable of the dataset has a
    ['coordinates'] attribute, and after [_restore_coord_attrs] none has
    a ['_coordinates'] attribute.  Both keep the dimensions, coordinate
    names and variable names, the dimension names, data and encoding of
    every variable, and every attribute under another name than these
    two. *)
Theorem coord_attrs_moved (ds : Dataset) (n : string) (v : xr_Variable) :
  vars_lookup n (variables ds) = Some v →
  (∃ v', vars_lookup n (variables (_rename_coord_attrs ds)) = Some v' ∧
     attrs v' !! "coordinates" = None ∧
     dims v' = dims v ∧ data v' = data v ∧ encoding v' = encoding v ∧
     ∀ k, k ≠ "coordinates" → k ≠ "_coordinates" → attrs v' !! k = attrs v !! k) ∧
  (∃ v', vars_lookup n (variables (_restore_coord_attrs ds)) = Some v' ∧
     attrs v' !! "_coordinates" = None ∧
     dims v' = dims v ∧ data v' = data v ∧ encoding v' = encoding v ∧
     ∀ k, k ≠ "coordinates" → k ≠ "_coordinates" → attrs v' !! k = attrs v !! k) ∧
  ds_dims (_rename_coord_attrs ds) = ds_dims ds ∧
  ds_dims (_restore_coord_attrs ds) = ds_dims ds ∧
  (variables (_rename_coord_attrs ds)).*1 = (variables ds).*1 ∧
  (variables (_restore_coord_attrs ds)).*1 = (variables ds).*1.
Proof.
  intros Hv.
  destruct (move_attr_loop_rewritten "coordinates" "_coordinates" ds ltac:(done))
    as (Hd1 & _ & Hn1 & Hl1).
  destruct (move_attr_loop_rewritten "_coordinates" "coordinates" ds ltac:(done))
    as (Hd2 & _ & Hn2 & Hl2).
  repeat split; try done.
  - unfold _rename_coord_attrs. rewrite Hl1, Hv. eexists. split; [reflexivity |]. cbn.
    repeat split; [by apply move_attr_gone |].
    intros k ? ?. by apply move_attr_other.
  - unfold _restore_coord_attrs. rewrite Hl2, Hv. eexists. split; [reflexivity |]. cbn.
    repeat split; [by apply move_attr_gone |].
    intros k ? ?. by apply move_attr_other.
Qed.

Lemma coord_attrs_moved_witness :
  ∃ v', vars_lookup "T" (variables (_rename_coord_attrs dataset_with_coordinates)) = Some v' ∧
    attrs v' !! "coordinates" = None ∧ attrs v' !! "units" = Some (VStr "degC").
Proof.
  destruct (coord_attrs_moved dataset_with_coordinates "T" _ eq_refl)
    as ((v' & Hv & Hgone & _ & _ & _ & Hother) & _).
  exists v'. split; [exact Hv |]. split; [exact Hgone |].
  rewrite Hother by done. reflexivity.
Defined.

(** X16: [_restore_coord_attrs] undoes [_rename_coord_attrs] on a
    dataset in which no variable has a ['_coordinates'] attribute and no
    ['coordinates'] attribute is [None]: dimensions, coordinate names
    and variable names are the same and every variable is back with the
    attributes it had. *)
Theorem restore_rename_coord_attrs (ds : Dataset) :
  (∀ n v, vars_lookup n (variables ds) = Some v →
     attrs v !! "_coordinates" = None ∧ attrs v !! "coordinates" ≠ Some VNone) →
  let ds' := _restore_coord_attrs (_rename_coord_attrs ds) in
  ds_dims ds' = ds_dims ds ∧ coord_names ds' = coord_names ds ∧
  (variables ds').*1 = (variables ds).*1 ∧
  ∀ n, vars_lookup n (variables ds') = vars_lookup n (variables ds).
Proof.
  intros Hpre ds'.
  destruct (move_attr_loop_rewritten "coordinates" "_coordinates" ds ltac:(done))
    as (Hd1 & Hc1 & Hn1 & Hl1).
  destruct (move_attr_loop_rewritten "_coordinates" "coordinates" (_rename_coord_attrs ds)
              ltac:(done)) as (Hd2 & Hc2 & Hn2 & Hl2).
  fold (_rename_coord_attrs ds) in Hd1, Hc1, Hn1, Hl1.
  fold (_restore_coord_attrs (_rename_coord_attrs ds)) in Hd2, Hc2, Hn2, Hl2.
  fold ds' in Hd2, Hc2, Hn2, Hl2.
  repeat split; try congruence.
  intros n. rewrite Hl2, Hl1.
  destruct (vars_lookup n (variables ds)) as [v |] eqn:Hv; cbn; [| done].
  destruct (Hpre n v Hv) as [Hnew Hold].
  unfold with_attrs. cbn. rewrite move_attr_back by done. by destruct v.
Qed.

Lemma restore_rename_coord_attrs_witness :
  vars_lookup "T"
    (variables (_restore_coord_attrs (_rename_coord_attrs dataset_with_coordinates)))
  = vars_lookup "T" (variables dataset_with_coordinates).
Proof.
  destruct (restore_rename_coord_attrs dataset_with_coordinates) as (_ & _ & _ & H);
    [| apply H].
  intros n v. unfold dataset_with_coordinates. cbn.
  repeat (case_decide; [intros [= <-]; split; [reflexivity | discriminate] |]).
  done.
Defined.

(** X17: where the round trip loses something.  A ['coordinates']
    attribute that is [None] is removed by [_rename_coord_attrs] and
    nothing is written in its place; and a ['_coordinates'] attribute a
    variable already has is overwritten by the value of its
    ['coordinates']. *)
Theorem rename_coord_attrs_lossy (ds : Dataset) (n : string) (v : xr_Variable) :
  vars_lookup n (variables ds) = Some v →
  (attrs v !! "coordinates" = Some VNone →
   ∃ v', vars_lookup n (variables (_rename_coord_attrs ds)) = Some v' ∧
     attrs v' = delete "coordinates" (attrs v)) ∧
  (∀ c, attrs v !! "coordinates" = Some c → c ≠ VNone →
   ∃ v', vars_lookup n (variables (_rename_coord_attrs ds)) = Some v' ∧
     attrs v' !! "_coordinates" = Some c).
Proof.
  intros Hv.
  destruct (move_attr_loop_rewritten "coordinates" "_coordinates" ds ltac:(done))
    as (_ & _ & _ & Hl).
  unfold _rename_coord_attrs. rewrite Hl, Hv. cbn. split.
  - intros Hnone. eexists. split; [reflexivity |]. cbn. unfold move_attr.
    rewrite Hnone. cbn. by rewrite decide_True.
  - intros c Hc Hne. eexists. split; [reflexivity |]. cbn. unfold move_attr.
    rewrite Hc. cbn. rewrite decide_False by done. apply lookup_insert_eq.
Qed.

Lemma rename_coord_attrs_lossy_witness :
  ∃ v', vars_lookup "T" (variables (_rename_coord_attrs
          (mkDataset [("X", 4%nat)]
             [("T", mkVariable ["X"] (Buffer 1 [4%nat]) {[ "coordinates" := VNone ]} ∅)]
             []))) = Some v' ∧
    attrs v' = delete "coordinates" {[ "coordinates" := VNone ]}.
Proof.
  destruct (rename_coord_attrs_lossy
              (mkDataset [("X", 4%nat)]
                 [("T", mkVariable ["X"] (Buffer 1 [4%nat]) {[ "coordinates" := VNone ]} ∅)]
                 []) "T" _ eq_refl) as [H _].
  apply H. reflexivity.
Defined.

(** * Properties of the argument checks *)

Section CheckInstanceProps.
Context {Obj : Type}.
Variable isinstance_eval : Obj → string → result bool.

Lemma eval_checks_ret (holds : string → bool) (value : Obj) (cs : list string) :
  (∀ c, c ∈ cs → isinstance_eval value c = Ret (holds c)) →
  eval_checks isinstance_eval value cs = Ret (holds <$> cs).
Proof.
  induction cs as [| c cs IH]; intros H; cbn [eval_checks]; [done |].
  rewrite (H c) by apply list_elem_of_here. cbn.
  rewrite IH by (intros c' Hc'; apply H; by apply list_elem_of_further).
  done.
Qed.

Lemma existsb_id_fmap (holds : string → bool) (cs : list string) :
  existsb (fun b => b) (holds <$> cs) = true ↔ ∃ c, c ∈ cs ∧ holds c = true.
Proof.
  induction cs as [| c cs IH]; cbn.
  - split; [done |]. intros (c & Hc & _). by apply elem_of_nil in Hc.
  - rewrite orb_true_iff, IH. split.
    + intros [H | (c' & Hc' & H)].
      * exists c. split; [apply list_elem_of_here | done].
      * exists c'. split; [by apply list_elem_of_further | done].
    + intros (c' & Hc' & H). apply elem_of_cons in Hc' as [-> | Hc'].
      * by left.
      * right. by exists c'.
Qed.

(** X18 ([_check_instance]).  When every evaluation of [isinstance]
    returns, the check accepts exactly when each object is an instance
    of at least one of the classes asked of it; and the only exceptions
    of the check itself are [TypeError] and the [KeyError] of a name
    missing from [classinfos]. *)
Theorem check_instance_accepts_iff (holds : Obj → string → bool)
    (objs : list (string * Obj)) (infos : classinfos) :
  (∀ item cs c, item ∈ objs → classes_asked infos item.1 = Ret cs → c ∈ cs →
     isinstance_eval item.2 c = Ret (holds item.2 c)) →
  (_check_instance isinstance_eval objs infos = Ret tt ↔
     ∀ item, item ∈ objs →
       ∃ cs c, classes_asked infos item.1 = Ret cs ∧ c ∈ cs ∧ holds item.2 c = true)
  ∧ (∀ e, _check_instance isinstance_eval objs infos = Raise e →
       e = TypeError ∨ e = KeyError).
Proof.
  unfold _check_instance.
  induction objs as [| item objs IH]; intros Heval; cbn [for_each].
  - split; [| done]. split; [| done]. intros _ item Hitem. by apply elem_of_nil in Hitem.
  - destruct IH as [IHok IHerr].
    { intros item' cs c Hin. apply Heval. by apply list_elem_of_further. }
    assert (check_instance_item isinstance_eval infos () item =
            match classes_asked infos item.1 with
            | Ret cs => if existsb (fun b => b) (holds item.2 <$> cs)
                        then Ret tt else Raise TypeError
            | Raise e => Raise e
            end) as ->.
    { unfold check_instance_item.
      destruct (classes_asked infos item.1) as [cs | e0] eqn:Hcs; cbn; [| done].
      rewrite (eval_checks_ret (holds item.2)) by
        (intros c Hc; by apply (Heval item cs c); [apply list_elem_of_here | |]).
      cbn. by destruct (existsb _ _). }
    destruct (classes_asked infos item.1) as [cs | e0] eqn:Hcs; cbn.
    + destruct (existsb (fun b => b) (holds item.2 <$> cs)) eqn:Hany; cbn.
      * apply existsb_id_fmap in Hany as (c & Hc & Hholds).
        split; [| exact IHerr]. rewrite IHok. split.
        -- intros H item' Hin. apply elem_of_cons in Hin as [-> | Hin]; [| by apply H].
           by exists cs, c.
        -- intros H item' Hin. apply H. by apply list_elem_of_further.
      * split; [| intros e [= <-]; by left]. split; [done |].
        intros H. destruct (H item) as (cs' & c & Hcs' & Hc & Hholds);
          [apply list_elem_of_here |].
        rewrite Hcs in Hcs'. injection Hcs' as <-.
        assert (existsb (fun b => b) (holds item.2 <$> cs) = true) as Hex
          by (apply existsb_id_fmap; by exists c).
        by rewrite Hex in Hany.
    + split.
      * split; [done |]. intros H.
        destruct (H item) as (cs' & c & Hcs' & _); [apply list_elem_of_here |].
        by rewrite Hcs in Hcs'.
      * intros e [= <-]. unfold classes_asked in Hcs.
        destruct infos as [s | d]; cbn in Hcs; [done |].
        assert (∀ c, classinfos_getitem item.1 d = Raise c → c = KeyError) as Hkey.
        { clear. induction d as [| [k c'] d IH]; intros c; cbn.
          - by intros [= <-].
          - case_decide; [done | apply IH]. }
        destruct (classinfos_getitem item.1 d) as [c' | e1] eqn:Hget; cbn in Hcs; [done |].
        injection Hcs as <-. right. by apply Hkey.
Qed.

(** X19 ([_check_instance]).  Every class name of the list is
    evaluated, also after one has matched: an exception of a later
    evaluation is the outcome of the check. *)
Theorem check_instance_evaluates_every_class (key : string) (value : Obj)
    (objs : list (string * Obj)) (infos : classinfos)
    (cs1 : list string) (c : string) (cs2 : list string) (e : exn) :
  classes_asked infos key = Ret (cs1 ++ c :: cs2) →
  (∀ c', c' ∈ cs1 → ∃ b, isinstance_eval value c' = Ret b) →
  isinstance_eval value c = Raise e →
  _check_instance isinstance_eval ((key, value) :: objs) infos = Raise e.
Proof.
  intros Hcs Hbefore He.
  unfold _check_instance. cbn [for_each].
  assert (check_instance_item isinstance_eval infos () (key, value) = Raise e) as ->;
    [| done].
  unfold check_instance_item. cbn [fst snd]. rewrite Hcs. cbn.
  assert (eval_checks isinstance_eval value (cs1 ++ c :: cs2) = Raise e) as ->; [| done].
  clear Hcs. induction cs1 as [| c1 cs1 IH]; cbn [app eval_checks].
  - by rewrite He.
  - destruct (Hbefore c1) as [b ->]; [apply list_elem_of_here |]. cbn.
    rewrite IH by (intros c' Hc'; apply Hbefore; by apply list_elem_of_further).
    done.
Qed.
End CheckInstanceProps.

Lemma check_instance_accepts_iff_witness :
  _check_instance (isinstance_py (fun _ c => Raise (NameError c)))
    [("meanAxes", OBool true); ("exclude", OList ["X"])]
    (InfoDict [("meanAxes", ClsList ["bool"; "list"; "str"]); ("exclude", ClsStr "list")])
  = Ret tt.
Proof.
  apply (check_instance_accepts_iff (isinstance_py (fun _ c => Raise (NameError c)))
           (fun v c => default false (isinstance_builtin v c))).
  - intros item cs c Hitem Hcs Hc.
    apply elem_of_cons in Hitem as [-> | Hitem];
      [| apply list_elem_of_singleton in Hitem as ->];
      injection Hcs as <-;
      repeat (apply elem_of_cons in Hc as [-> | Hc]; [reflexivity |]);
      by apply elem_of_nil in Hc.
  - intros item Hitem.
    apply elem_of_cons in Hitem as [-> | Hitem];
      [| apply list_elem_of_singleton in Hitem as ->].
    + exists ["bool"; "list"; "str"], "bool". repeat split. apply list_elem_of_here.
    + exists ["list"], "list". repeat split. apply list_elem_of_here.
Defined.

Lemma check_instance_evaluates_every_class_witness :
  _check_instance (isinstance_py (fun _ c => Raise (NameError c)))
    [("n", OInt 1)] (InfoDict [("n", ClsList ["int"; "integer"])])
  = Raise (NameError "integer").
Proof.
  apply (check_instance_evaluates_every_class _ "n" (OInt 1) [] _ ["int"] "integer" []).
  - reflexivity.
  - intros c' Hc'. apply list_elem_of_singleton in Hc' as ->. by exists true.
  - reflexivity.
Defined.

(** ** Lists of names *)

Lemma numpy_str_cons (c : ascii) (s : string) :
  numpy_str (String c s) =
  match numpy_str s with
  | EmptyString => if Ascii.eqb c "000" then EmptyString else String c EmptyString
  | r => String c r
  end.
Proof. reflexivity. Qed.

Lemma numpy_str_idem (s : string) : numpy_str (numpy_str s) = numpy_str s.
Proof.
  induction s as [| c s IH]; [done |]. rewrite numpy_str_cons.
  destruct (numpy_str s) as [| d r] eqn:Hr.
  - destruct (Ascii.eqb c "000") eqn:Hc; [done |]. rewrite numpy_str_cons. cbn.
    by rewrite Hc.
  - by rewrite numpy_str_cons, IH.
Qed.

Lemma numpy_str_no_nul (s : string) : no_nul s → numpy_str s = s.
Proof.
  induction s as [| c s IH]; [done |]. rewrite numpy_str_cons. cbn [no_nul].
  intros [Hc Hs]. rewrite (IH Hs). destruct s; [by rewrite Hc | done].
Qed.

Lemma string_of_uint_no_nul (d : Decimal.uint) : no_nul (NilEmpty.string_of_uint d).
Proof. induction d; cbn; auto. Qed.

Lemma py_str_int_no_nul (z : Z) : no_nul (py_str (VInt z)).
Proof.
  cbn [py_str]. unfold NilZero.string_of_int, NilZero.string_of_uint.
  destruct (Z.to_int z) as [d | d]; [| split; [done |]];
    (destruct d; [by cbn | apply string_of_uint_no_nul ..]).
Qed.

(** X20 ([_check_list_of_string]).  The array returned is a fixed point
    of the check: given back as a list, it is returned as it is. *)
Theorem check_list_of_string_idempotent (obj : py_obj) (objName : string)
    (l : list string) :
  _check_list_of_string obj objName = Ret (Array l) →
  _check_list_of_string (OList l) objName = Ret (Array l).
Proof.
  assert (∀ l0, _check_list_of_string (OList (numpy_str <$> l0)) objName
                = Ret (Array (numpy_str <$> l0))) as Hlist.
  { intros l0. cbn. do 2 f_equal. rewrite <- list_fmap_compose.
    apply list_fmap_ext. intros _ s _. apply numpy_str_idem. }
  intros H. assert (∃ l0, l = numpy_str <$> l0) as [l0 ->]; [| apply Hlist].
  destruct obj as [| b | z | s | l0 | row rows]; cbn in H.
  - done.
  - injection H as <-. exists [if b then "True" else "False"]. by destruct b.
  - injection H as <-. exists [py_str (VInt z)]. cbn [fmap list_fmap].
    by rewrite numpy_str_no_nul by apply py_str_int_no_nul.
  - injection H as <-. by exists [s].
  - injection H as <-. by exists l0.
  - by destruct (forallb _ rows).
Qed.

Lemma check_list_of_string_idempotent_witness :
  _check_list_of_string (OList ["Temp"]) "varNameList" = Ret (Array ["Temp"]).
Proof.
  apply (check_list_of_string_idempotent (OStr "Temp") "varNameList" ["Temp"]).
  reflexivity.
Defined.

(** ** Aliases *)

Section AliasesProps.
Variable isinstance_od : OceanDataset → string → result bool.

(** X21 ([_handle_aliased], [_rename_aliased]).  For an [OceanDataset]
    and a str or a list of str the call returns and [OUT] is the
    argument.  [IN] holds as many names in the same order: name by name
    the name in the dataset that the alias stands for, or the name
    itself when it is no alias.  For a str it is a str; for a list it is
    a list when the dataset has aliases, and the numpy array that
    [_check_list_of_string] made of the list when it has none.  With
    [aliased] false both are the argument, whatever it is. *)
Theorem handle_aliased_elementwise (od : OceanDataset) :
  isinstance_od od "oceanspy.OceanDataset" = Ret true →
  let ds_name := fun x =>
    default (numpy_str x) (aliases ← _aliases_flipped od; aliases !! numpy_str x) in
  (∀ s, _handle_aliased isinstance_od od true (OStr s)
        = Ret (Obj (OStr (ds_name s)), OStr s))
  ∧ (∀ l, _handle_aliased isinstance_od od true (OList l)
          = Ret (match _aliases_flipped od with
                 | Some _ => Obj (OList (ds_name <$> l))
                 | None => NdArray (ds_name <$> l)
                 end, OList l))
  ∧ (∀ names, _handle_aliased isinstance_od od false names = Ret (Obj names, names)).
Proof.
  intros Hod ds_name. subst ds_name.
  assert (_check_instance isinstance_od [("od", od)] (InfoStr "oceanspy.OceanDataset")
          = Ret tt) as Hcheck.
  { unfold _check_instance. cbn [for_each]. unfold check_instance_item. cbn.
    by rewrite Hod. }
  split; [| split]; [intros s | intros l | done].
  all: unfold _handle_aliased, _rename_aliased; rewrite Hcheck; cbn;
    destruct (_aliases_flipped od) as [aliases |]; cbn; try done.
  all: do 3 f_equal; by rewrite <- list_fmap_compose.
Qed.

(** X22 ([_rename_aliased]).  An object that is no [OceanDataset] is
    refused with [TypeError] whatever the names.  For an
    [OceanDataset], [None] in place of the names is returned as [None]
    when the dataset has no aliases and raises [TypeError] when it has,
    and a list of lists of names is never accepted. *)
Theorem rename_aliased_refusals (od : OceanDataset) :
  (isinstance_od od "oceanspy.OceanDataset" = Ret false →
     ∀ names, _rename_aliased isinstance_od od names = Raise TypeError)
  ∧ (isinstance_od od "oceanspy.OceanDataset" = Ret true →
     _rename_aliased isinstance_od od ONone
       = match _aliases_flipped od with
         | Some _ => Raise TypeError
         | None => Ret (Obj ONone)
         end
     ∧ ∀ row rows, ∃ e, _rename_aliased isinstance_od od (ONested row rows) = Raise e
                        ∧ (e = TypeError ∨ e = ValueError)).
Proof.
  split; intros Hod.
  - intros names. unfold _rename_aliased, _check_instance. cbn [for_each].
    unfold check_instance_item. cbn. by rewrite Hod.
  - assert (_check_instance isinstance_od [("od", od)] (InfoStr "oceanspy.OceanDataset")
            = Ret tt) as Hcheck.
    { unfold _check_instance. cbn [for_each]. unfold check_instance_item. cbn.
      by rewrite Hod. }
    split.
    + unfold _rename_aliased. rewrite Hcheck. cbn. by destruct (_aliases_flipped od).
    + intros row rows. unfold _rename_aliased. rewrite Hcheck. cbn.
      destruct (forallb _ rows); cbn; eauto.
Qed.
End AliasesProps.

Lemma handle_aliased_elementwise_witness :
  _handle_aliased (fun _ _ => Ret true)
    (mkOceanDataset sample_dataset (Some {[ "T" := "Temp" ]}) sample_coords)
    true (OList ["T"; "S"])
  = Ret (Obj (OList ["Temp"; "S"]), OList ["T"; "S"])
  ∧ _handle_aliased (fun _ _ => Ret true)
      (mkOceanDataset sample_dataset None sample_coords) true (OList ["T"; "S"])
    = Ret (NdArray ["T"; "S"], OList ["T"; "S"]).
Proof.
  split.
  - destruct (handle_aliased_elementwise (fun _ _ => Ret true)
                (mkOceanDataset sample_dataset (Some {[ "T" := "Temp" ]}) sample_coords)
                eq_refl) as (_ & H & _).
    rewrite (H ["T"; "S"]). vm_compute. reflexivity.
  - destruct (handle_aliased_elementwise (fun _ _ => Ret true)
                (mkOceanDataset sample_dataset None sample_coords)
                eq_refl) as (_ & H & _).
    rewrite (H ["T"; "S"]). vm_compute. reflexivity.
Defined.

Lemma rename_aliased_refusals_witness :
  _rename_aliased (fun _ _ => Ret true)
    (mkOceanDataset sample_dataset (Some ∅) sample_coords) ONone
  = Raise TypeError
  ∧ _rename_aliased (fun _ _ => Ret false)
      (mkOceanDataset sample_dataset None sample_coords) (OStr "T")
    = Raise TypeError.
Proof.
  split.
  - destruct (rename_aliased_refusals (fun _ _ => Ret true)
                (mkOceanDataset sample_dataset (Some ∅) sample_coords)) as [_ H].
    destruct (H eq_refl) as [-> _]. reflexivity.
  - destruct (rename_aliased_refusals (fun _ _ => Ret false)
                (mkOceanDataset sample_dataset None sample_coords)) as [H _].
    apply (H eq_refl).
Defined.

(** ** Mean and integral axes *)

Lemma axes_to_pass_clean (od : OceanDataset) (a : axes) (exclude : py_obj) (a' : axes) :
  axes_to_pass od a exclude = Ret a' →
  a' = AxesBool false
  ∨ ∃ l, a' = AxesArray l ∧ Forall (fun x => in_list x exclude = false) l.
Proof.
  destruct a as [[|] | l |]; cbn.
  - destruct (grid_coords od) as [items |]; [| done]. intros [= <-]. right.
    eexists. split; [done |]. apply Forall_forall. intros x Hx.
    by apply list_elem_of_filter in Hx as [Hx _].
  - intros [= <-]. by left.
  - destruct (existsb _ l) eqn:Hex; [done |]. intros [= <-]. right.
    exists l. split; [done |]. clear -Hex.
    induction l as [| x l IH]; [done |]. cbn in Hex.
    apply orb_false_iff in Hex as [Hx Hl]. constructor; auto.
  - done.
Qed.

Section MeanAndIntAxesProps.
Variable isinstance_other : py_obj → string → result bool.

(** X23 ([_check_mean_and_int_axes]).  When one of [meanAxes] and
    [intAxes] is [True] and the other is not [False], the call never
    returns: it raises [ValueError], or [TypeError] for an argument of
    a wrong type; [ValueError] for sure when the other is a bool, a str
    or a list of str and [exclude] is a list. *)
Theorem check_mean_and_int_axes_conflict (od : OceanDataset)
    (meanAxes intAxes exclude : py_obj) :
  (meanAxes = OBool true ∧ intAxes ≠ OBool false)
  ∨ (intAxes = OBool true ∧ meanAxes ≠ OBool false) →
  (∃ e, _check_mean_and_int_axes isinstance_other od meanAxes intAxes exclude = Raise e
        ∧ (e = ValueError ∨ e = TypeError))
  ∧ ((∃ ex, exclude = OList ex) →
     (∀ row rows, meanAxes ≠ ONested row rows ∧ intAxes ≠ ONested row rows) →
     meanAxes ≠ ONone → intAxes ≠ ONone →
     (∀ z, meanAxes ≠ OInt z ∧ intAxes ≠ OInt z) →
     _check_mean_and_int_axes isinstance_other od meanAxes intAxes exclude
       = Raise ValueError).
Proof.
  intros [[-> Hint] | [-> Hmean]].
  - split.
    + destruct intAxes as [| [|] | z | s | l | row rows]; try done;
        destruct exclude as [| b' | z' | s' | l' | row' rows'];
        try (vm_compute; eauto; fail);
        unfold _check_mean_and_int_axes; cbn;
        destruct (forallb _ rows); cbn; eauto.
    + intros [ex ->] Hnested Hm Hi Hz.
      destruct intAxes as [| [|] | z | s | l | row rows]; try done.
      * by destruct (Hz z).
      * by destruct (Hnested row rows).
  - split.
    + destruct meanAxes as [| [|] | z | s | l | row rows]; try done;
        destruct exclude as [| b' | z' | s' | l' | row' rows'];
        try (vm_compute; eauto; fail);
        unfold _check_mean_and_int_axes; cbn;
        destruct (forallb _ rows); cbn; eauto.
    + intros [ex ->] Hnested Hm Hi Hz.
      destruct meanAxes as [| [|] | z | s | l | row rows]; try done.
      * by destruct (Hz z).
      * by destruct (Hnested row rows).
Qed.

(** X24 ([_check_mean_and_int_axes]).  What is returned for each of the
    two is [False] or a list of axes none of which is in [exclude],
    never [True]; and when one argument is [True], [False] is returned
    for the other. *)
Theorem check_mean_and_int_axes_clean (od : OceanDataset)
    (meanAxes intAxes exclude : py_obj) (m i : axes) :
  _check_mean_and_int_axes isinstance_other od meanAxes intAxes exclude = Ret (m, i) →
  (m = AxesBool false
   ∨ ∃ l, m = AxesArray l ∧ Forall (fun x => in_list x exclude = false) l)
  ∧ (i = AxesBool false
     ∨ ∃ l, i = AxesArray l ∧ Forall (fun x => in_list x exclude = false) l)
  ∧ (meanAxes = OBool true → i = AxesBool false)
  ∧ (intAxes = OBool true → m = AxesBool false).
Proof.
  unfold _check_mean_and_int_axes.
  destruct (_check_instance _ _ _) as [[] | e]; cbn; [| done].
  destruct (convert_axes meanAxes "meanAxes") as [ma | e] eqn:Hma; cbn; [| done].
  destruct (convert_axes intAxes "intAxes") as [ia | e] eqn:Hia; cbn; [| done].
  destruct (is_True ma && negb (is_False ia) || is_True ia && negb (is_False ma))
    eqn:Hflag; [done |].
  destruct (axes_to_pass od ma exclude) as [m' | e] eqn:Hm; cbn; [| done].
  destruct (axes_to_pass od ia exclude) as [i' | e] eqn:Hi; cbn; [| done].
  intros [= <- <-].
  split; [by eapply axes_to_pass_clean |]. split; [by eapply axes_to_pass_clean |].
  split; intros ->; cbn in *; simplify_eq.
  - destruct ia as [[|] | |]; cbn in *; simplify_eq. done.
  - destruct ma as [[|] | |]; cbn in *; simplify_eq; try done.
    all: by rewrite ?orb_true_r in Hflag.
Qed.
End MeanAndIntAxesProps.

Lemma check_mean_and_int_axes_conflict_witness :
  _check_mean_and_int_axes (fun _ c => Raise (NameError c))
    (mkOceanDataset sample_dataset None sample_coords)
    (OBool true) (OList ["X"]) (OList [])
  = Raise ValueError.
Proof.
  destruct (check_mean_and_int_axes_conflict (fun _ c => Raise (NameError c))
              (mkOceanDataset sample_dataset None sample_coords)
              (OBool true) (OList ["X"]) (OList [])) as [_ H].
  - left. split; [reflexivity | discriminate].
  - apply H; try discriminate.
    + by exists [].
    + intros row rows. split; discriminate.
    + intros z. split; discriminate.
Defined.

Lemma check_mean_and_int_axes_clean_witness :
  Forall (fun x => in_list x (OList ["Y"]) = false) ["X"].
Proof.
  destruct (check_mean_and_int_axes_clean (fun _ c => Raise (NameError c))
              (mkOceanDataset sample_dataset None sample_coords)
              (OBool true) (OBool false) (OList ["Y"])
              (AxesArray ["X"]) (AxesBool false) eq_refl) as [[H | (l & H & Hl)] _].
  - discriminate H.
  - injection H as <-. exact Hl.
Defined.
